(** * Incremental code backup: a shallow embedding of [code_backup]

  The development follows [file_copy.py] (the backup engine, the retention
  manager, the change report and the retry decorator) and [restore_env.py]
  (the environment restorer).  Python dictionaries are finite maps, Python
  sets are finite sets, exceptions are an error result, and the parts of
  the operating system the scripts talk to (directory listings, the source
  tree, the outcome of each copy) are explicit values. *)

From Stdlib Require Import ZArith Lia Ascii.
From stdpp Require Import gmap strings list fin_maps sorting.

(** ** Python built-ins *)

Module Py.

(** [str.lower] on the ASCII range; bytes outside [A-Z] are unchanged. *)
Definition lower_ascii (c : ascii) : ascii :=
  let n := Ascii.N_of_ascii c in
  if ((65 <=? n) && (n <=? 90))%N then Ascii.ascii_of_N (n + 32) else c.

Fixpoint lower (s : string) : string :=
  match s with
  | EmptyString => EmptyString
  | String c s' => String (lower_ascii c) (lower s')
  end.

(** [needle in hay] on strings. *)
Fixpoint contains (needle hay : string) : bool :=
  String.prefix needle hay ||
  match hay with
  | EmptyString => false
  | String _ hay' => contains needle hay'
  end.

Definition startswith (p s : string) : bool := String.prefix p s.

Definition endswith (suffix s : string) : bool :=
  String.prefix (String.rev suffix) (String.rev s).

(** [p.rfind('.')] *)
Fixpoint rfind_dot (p : string) : option nat :=
  match p with
  | EmptyString => None
  | String c p' =>
      match rfind_dot p' with
      | Some i => Some (S i)
      | None => if Ascii.eqb c "." then Some 0 else None
      end
  end.

(** The loop of [genericpath._splitext] that skips leading dots: is there
    an index below [n] whose character is not a dot? *)
Fixpoint non_dot_before (n : nat) (p : string) : bool :=
  match n, p with
  | S n', String c p' => if Ascii.eqb c "." then non_dot_before n' p' else true
  | _, _ => false
  end.

(** [os.path.splitext] on a bare file name (no separator). *)
Definition splitext (p : string) : string * string :=
  match rfind_dot p with
  | Some i =>
      if non_dot_before i p
      then (String.substring 0 i p, String.substring i (String.length p - i) p)
      else (p, EmptyString)
  | None => (p, EmptyString)
  end.

(** [max] of a sequence of strings: the first greatest element. *)
Definition max_str (l : list string) : option string :=
  match l with
  | [] => None
  | x :: l' => Some (foldl (fun best d => if String.ltb best d then d else best) x l')
  end.

(** A stable sort.  [le x y] says that [x] may stand before [y]; an
    element is put in front of the first later element it may stand
    before, so equal keys keep their original order, as in [list.sort]
    and [sorted]. *)
Fixpoint insert_by {A} (le : A -> A -> bool) (x : A) (l : list A) : list A :=
  match l with
  | [] => [x]
  | y :: l' => if le x y then x :: y :: l' else y :: insert_by le x l'
  end.

Definition sort_by {A} (le : A -> A -> bool) (l : list A) : list A :=
  foldr (insert_by le) [] l.

(** [l[k:]] for a Python integer [k]. *)
Definition slice_from {A} (k : Z) (l : list A) : list A :=
  if (k <? 0)%Z
  then drop (Z.to_nat (Z.max 0 (Z.of_nat (length l) + k))) l
  else drop (Z.to_nat k) l.

End Py.

(** ** The backup engine, [file_copy.py] *)

Module FileCopy.

(** *** Exceptions and effects *)

Inductive error :=
| FileAccessError (path : string)     (* [open] fails while hashing *)
| CopyError (path : string)           (* [shutil.copy2] fails *)
| ManifestError (dir : string)        (* the previous manifest cannot be decoded *)
| NotADirectoryError (path : string)  (* the backup path is a regular file *)
| KeyError (key : string).

Inductive result (A : Type) :=
| Ok (a : A)
| Err (e : error).
Arguments Ok {A} a.
Arguments Err {A} e.

(** What the engine changes outside its own variables: [copy_script] holds
    the outcome of each forthcoming call of [shutil.copy2] ([true] is a
    success; once the script is used up every call succeeds), [copied]
    the copies made so far and [slept] the delays passed to [time.sleep]. *)
Record world := {
  copy_script : list bool;
  copied : list (string * string);
  slept : list nat
}.

Definition M (A : Type) : Type := world -> result A * world.

Definition ret {A} (a : A) : M A := fun w => (Ok a, w).

Definition raise {A} (e : error) : M A := fun w => (Err e, w).

Definition bind {A B} (m : M A) (k : A -> M B) : M B :=
  fun w =>
    match m w with
    | (Ok a, w') => k a w'
    | (Err e, w') => (Err e, w')
    end.

Definition lift {A} (r : result A) : M A := fun w => (r, w).

Declare Scope py_scope.
Delimit Scope py_scope with py.
Notation "x <- m ;; k" := (bind m (fun x => k))
  (at level 100, m at next level, right associativity) : py_scope.
Notation "m ;; k" := (bind m (fun _ => k))
  (at level 100, right associativity) : py_scope.
Local Open Scope py_scope.

Fixpoint foldM {A S} (f : S -> A -> M S) (s : S) (l : list A) : M S :=
  match l with
  | [] => ret s
  | x :: l' => s' <- f s x ;; foldM f s' l'
  end.

Definition shutil_copy2 (source target : string) : M unit :=
  fun w =>
    match copy_script w with
    | false :: script =>
        (Err (CopyError source),
         {| copy_script := script; copied := copied w; slept := slept w |})
    | true :: script =>
        (Ok tt,
         {| copy_script := script;
            copied := copied w ++ [(source, target)];
            slept := slept w |})
    | [] =>
        (Ok tt,
         {| copy_script := [];
            copied := copied w ++ [(source, target)];
            slept := slept w |})
    end.

Definition time_sleep (delay : nat) : M unit :=
  fun w =>
    (Ok tt,
     {| copy_script := copy_script w;
        copied := copied w;
        slept := slept w ++ [delay] |}).

(** *** The source tree and the destination root *)

(** A source file: the SHA-256 hex digest of its bytes ([None] when the
    file cannot be opened), [os.path.getsize] and the formatted
    [os.path.getmtime]. *)
Record file := {
  f_digest : option string;
  f_size : nat;
  f_modified : string
}.

#[local] Set Warnings "-register-all".
Inductive tree :=
| Dir (files : list (string * file)) (dirs : list (string * tree)).

Record distribution := {
  pkg_key : string;
  pkg_version : string;
  pkg_location : string
}.

Record package_info := {
  p_name : string;
  p_version : string;
  p_location : string;
  p_environment : option string
}.

(** One entry of ['files'].  No statement of the engine stores the key
    ['existed_in_last_backup']; the field is [None] when the key is
    absent, which is what [dict.get] then returns. *)
Record file_info := {
  fi_path : string;
  fi_type : string;
  fi_size : nat;
  fi_hash : string;
  fi_modified : string;
  fi_changed_since_last_backup : bool;
  fi_existed_in_last_backup : option bool
}.

Record backup_info := {
  bi_timestamp : string;
  bi_description : string;
  bi_tags : list string;
  bi_files : list file_info;
  bi_statistics : gmap string nat;
  bi_exclude_folders : list string;
  bi_environment : string;
  bi_packages : list package_info
}.

(** [backup_info.json] of a directory under the destination root. *)
Inductive manifest_file :=
| NoManifest
| Malformed
| Manifest (info : backup_info).

Inductive node :=
| RegularFile
| Directory (m : manifest_file).

(** What the run reads from its host: the two readings of the clock (the
    directory name and the ['timestamp'] field), the interpreter
    description, [pkg_resources.working_set], and the order in which the
    set literal of environment names is iterated. *)
Record host := {
  now_stamp : string;
  now_text : string;
  python_env : string;
  working_set : list distribution;
  lcychat_first : bool
}.

Definition lookup_node (name : string) (l : list (string * node)) : option node :=
  snd <$> List.find (fun e => String.eqb (fst e) name) l.

(** *** Hashing and package enumeration *)

Definition calculate_file_hash (file_path : string) (f : file) : M string :=
  match f_digest f with
  | Some digest => ret digest
  | None => raise (FileAccessError file_path)
  end.

(** Truth value of an optional collection of names. *)
Definition names_given (env_info_name : option (list string)) : list string :=
  default [] env_info_name.

Definition get_installed_packages (ws : list distribution)
    (env_info_name : option (list string)) : list package_info :=
  let names := names_given env_info_name in
  omap (fun pkg =>
          match names with
          | _ :: _ =>
              let here env_name := Py.contains env_name (Py.lower (pkg_location pkg)) in
              if existsb here names
              then Some {| p_name := pkg_key pkg;
                           p_version := pkg_version pkg;
                           p_location := pkg_location pkg;
                           p_environment := List.find here names |}
              else None
          | [] =>
              Some {| p_name := pkg_key pkg;
                      p_version := pkg_version pkg;
                      p_location := pkg_location pkg;
                      p_environment := None |}
          end) ws.

(** *** Traversal *)

(** [os.walk], top down, with the pruning assignment
    [dirs[:] = [d for d in dirs if d not in exclude_folders]] done on every
    triple before the walk descends.  [root] is the list of directory
    names from the source directory down to the directory visited. *)
Fixpoint walk (exclude_folders : gset string) (root : list string) (t : tree)
    : list (list string * list string * list (string * file)) :=
  match t with
  | Dir files dirs =>
      (root, filter (fun d => d ∉ exclude_folders) (fst <$> dirs), files) ::
      (fix descend (ds : list (string * tree)) :=
         match ds with
         | [] => []
         | (d, sub) :: ds' =>
             if decide (d ∈ exclude_folders)
             then descend ds'
             else walk exclude_folders (root ++ [d]) sub ++ descend ds'
         end) dirs
  end.

Definition CODE_FILE_TYPES : gset string :=
  list_to_set [".py"; ".md"; ".txt"; ".json"; ".yml"; ".yaml"; ".js"; ".html";
               ".css"; ".sql"; ".sh"; ".bat"; ".ini"; ".conf"; ".xml"; ".toml"].

Definition get_total_size (source_dir : tree) (file_types exclude_folders : gset string) : nat :=
  foldl (fun total_size '(_, _, files) =>
           foldl (fun total_size '(file, f) =>
                    if decide (Py.lower (Py.splitext file).2 ∈ file_types)
                    then total_size + f_size f
                    else total_size)
                 total_size files)
        0 (walk exclude_folders [] source_dir).

(** [os.path.relpath] of a file, and of a directory, below the source
    directory. *)
Definition relpath (root : list string) (file : string) : string :=
  String.concat "/" (root ++ [file]).

Definition relroot (root : list string) : string :=
  match root with
  | [] => "."
  | _ => String.concat "/" root
  end.

Definition join (a b : string) : string := a +:+ "/" +:+ b.

(** *** Change report and summary *)

Record change_report := {
  cr_new : list string;
  cr_modified : list string;
  cr_unchanged : list string
}.

(** Truth value of [file_info.get('existed_in_last_backup')]. *)
Definition existed (file_info : file_info) : bool :=
  match fi_existed_in_last_backup file_info with
  | Some b => b
  | None => false
  end.

Definition generate_change_report (backup_info : backup_info) : change_report :=
  foldl (fun changes file_info =>
           if fi_changed_since_last_backup file_info then
             if negb (existed file_info)
             then {| cr_new := cr_new changes ++ [fi_path file_info];
                     cr_modified := cr_modified changes;
                     cr_unchanged := cr_unchanged changes |}
             else {| cr_new := cr_new changes;
                     cr_modified := cr_modified changes ++ [fi_path file_info];
                     cr_unchanged := cr_unchanged changes |}
           else {| cr_new := cr_new changes;
                   cr_modified := cr_modified changes;
                   cr_unchanged := cr_unchanged changes ++ [fi_path file_info] |})
        {| cr_new := []; cr_modified := []; cr_unchanged := [] |}
        (bi_files backup_info).

Record backup_summary := {
  bs_timestamp : string;
  bs_total_files : nat;
  bs_total_size : nat;
  bs_new_files : nat;
  bs_modified_files : nat;
  bs_unchanged_files : nat;
  bs_file_types : gmap string nat
}.

Definition generate_backup_summary (backup_info : backup_info)
    (changes : change_report) : backup_summary :=
  {| bs_timestamp := bi_timestamp backup_info;
     bs_total_files := length (bi_files backup_info);
     bs_total_size := foldr (fun file total => fi_size file + total) 0 (bi_files backup_info);
     bs_new_files := length (cr_new changes);
     bs_modified_files := length (cr_modified changes);
     bs_unchanged_files := length (cr_unchanged changes);
     bs_file_types := bi_statistics backup_info |}.

(** *** Looking up the previous backup *)

(** [{file['path']: file['hash'] for file in last_info['files']}]: a later
    entry of the same path replaces an earlier one. *)
Definition load_last_backup_hash (last_info : backup_info) : gmap string string :=
  foldl (fun m file => <[fi_path file := fi_hash file]> m) ∅ (bi_files last_info).

Definition list_backup_dirs (target_dir : list (string * node)) : list string :=
  omap (fun e => match snd e with
                 | Directory _ => Some (fst e)
                 | RegularFile => None
                 end) target_dir.

(** Lines 125-135, on the listing of the destination root as it is when
    they run; the root exists by then, the backup directory having been
    made in it.  A manifest whose decoding or whose ['files'], ['path'] or
    ['hash'] lookups raise is [Malformed].  The result is [last_backup_dir]
    and [last_backup_hash]. *)
Definition find_last_backup (target_dir : list (string * node))
    : result (option string * gmap string string) :=
  match Py.max_str (list_backup_dirs target_dir) with
  | None => Ok (None, ∅)
  | Some last_backup_dir =>
      match lookup_node last_backup_dir target_dir with
      | Some (Directory (Manifest last_info)) =>
          Ok (Some last_backup_dir, load_last_backup_hash last_info)
      | Some (Directory Malformed) => Err (ManifestError last_backup_dir)
      | _ => Ok (Some last_backup_dir, ∅)
      end
  end.

(** [if not os.path.exists(backup_dir): os.makedirs(backup_dir)] *)
Definition ensure_backup_dir (backup_dir : string) (target_dir : list (string * node))
    : list (string * node) :=
  match lookup_node backup_dir target_dir with
  | Some _ => target_dir
  | None => target_dir ++ [(backup_dir, Directory NoManifest)]
  end.

(** Whether files can be created below [backup_dir]. *)
Definition writable_below (backup_dir path : string) (target_dir : list (string * node))
    : M unit :=
  match lookup_node backup_dir target_dir with
  | Some (Directory _) => ret tt
  | _ => raise (NotADirectoryError path)
  end.

(** [json.dump(backup_info, f)] into [backup_dir]. *)
Definition write_manifest (backup_dir : string) (info : backup_info)
    (target_dir : list (string * node)) : list (string * node) :=
  (fun e => if String.eqb (fst e) backup_dir
            then (fst e, Directory (Manifest info))
            else e) <$> target_dir.

(** *** Dependency fragments *)

(** The dictionary [env_packages], in insertion order. *)
Fixpoint add_to_env (env : string) (pkg : package_info)
    (env_packages : list (string * list package_info)) : list (string * list package_info) :=
  match env_packages with
  | [] => [(env, [pkg])]
  | (e, pkgs) :: rest =>
      if String.eqb e env
      then (e, pkgs ++ [pkg]) :: rest
      else (e, pkgs) :: add_to_env env pkg rest
  end.

Definition group_by_env (packages_info : list package_info)
    : list (string * list package_info) :=
  foldl (fun env_packages pkg =>
           add_to_env (default "unknown" (p_environment pkg)) pkg env_packages)
        [] packages_info.

Definition requirement_lines (pkgs : list package_info) : list string :=
  (fun pkg => p_name pkg +:+ "==" +:+ p_version pkg)
    <$> Py.sort_by (fun a b => String.leb (p_name a) (p_name b)) pkgs.

(** The requirements files written next to the manifest: file name and
    lines. *)
Definition write_requirements (packages_info : list package_info)
    (env_info_name : option (list string)) : list (string * list string) :=
  match packages_info with
  | [] => []
  | _ :: _ =>
      match names_given env_info_name with
      | _ :: _ =>
          (fun '(env, pkgs) =>
             ("requirements_" +:+ env +:+ ".txt", requirement_lines pkgs))
            <$> group_by_env packages_info
      | [] => [("requirements.txt", requirement_lines packages_info)]
      end
  end.

(** *** One backup run *)

Record progress := {
  pr_files : list file_info;
  pr_statistics : gmap string nat
}.

Definition is_modified (last_backup_hash : gmap string string)
    (relative_path file_hash : string) : bool :=
  match last_backup_hash !! relative_path with
  | Some h => negb (String.eqb h file_hash)
  | None => true
  end.

(** The body of the inner loop, lines 147-184, for the file [entry] of the
    directory [root]. *)
Definition backup_file (backup_dir : string) (target_dir : list (string * node))
    (last_backup_hash : gmap string string) (root : list string)
    (acc : progress) (entry : string * file) : M progress :=
  let file := fst entry in
  let file_ext := Py.lower (Py.splitext file).2 in
  if decide (file_ext ∈ CODE_FILE_TYPES) then
    let relative_path := relpath root file in
    file_hash <- calculate_file_hash relative_path (snd entry) ;;
    let target_path := join backup_dir (relroot root) in
    writable_below backup_dir target_path target_dir ;;
    shutil_copy2 relative_path (join target_path file) ;;
    let file_info :=
      {| fi_path := relative_path;
         fi_type := file_ext;
         fi_size := f_size (snd entry);
         fi_hash := file_hash;
         fi_modified := f_modified (snd entry);
         fi_changed_since_last_backup :=
           is_modified last_backup_hash relative_path file_hash;
         fi_existed_in_last_backup := None |} in
    count <- lift (match pr_statistics acc !! file_ext with
                   | Some n => Ok n
                   | None => Err (KeyError file_ext)
                   end) ;;
    ret {| pr_files := pr_files acc ++ [file_info];
           pr_statistics := <[file_ext := S count]> (pr_statistics acc) |}
  else ret acc.

Definition hard_coded_env_names (h : host) : list string :=
  if lcychat_first h then ["lcychat"; "openmmlab"] else ["openmmlab"; "lcychat"].

(** What a run leaves behind and returns. *)
Record backup_run := {
  br_backup_dir : string;
  br_info : backup_info;
  br_changes : change_report;
  br_summary : backup_summary;
  br_requirements : list (string * list string);
  br_target_dir : list (string * node)
}.

(** The run.  The progress bar (with [get_total_size]) and the texts of
    [backup_record.md] and [environment_info.json] have no part in what is
    returned or in the manifest, and are left out; that the backup
    directory can be written to is kept. *)
Definition copy_code_files (h : host) (source_dir : tree) (target_dir : list (string * node))
    (description : string) (tags : option (list string))
    (exclude_folders : option (list string)) (env_info_name : option (list string))
    : M backup_run :=
  let exclude_folders : gset string := list_to_set (default [] exclude_folders) in
  let env_info_name := Some (hard_coded_env_names h) in
  let backup_dir := now_stamp h in
  let target_dir := ensure_backup_dir backup_dir target_dir in
  let statistics : gmap string nat := gset_to_gmap 0 CODE_FILE_TYPES in
  found <- lift (find_last_backup target_dir) ;;
  let last_backup_hash := snd found in
  final <- foldM (fun acc '(root, _, files) =>
                   foldM (backup_file backup_dir target_dir last_backup_hash root) acc files)
                {| pr_files := []; pr_statistics := statistics |}
                (walk exclude_folders [] source_dir) ;;
  let packages_info := get_installed_packages (working_set h) env_info_name in
  let backup_info :=
    {| bi_timestamp := now_text h;
       bi_description := description;
       bi_tags := default [] tags;
       bi_files := pr_files final;
       bi_statistics := pr_statistics final;
       bi_exclude_folders := elements exclude_folders;
       bi_environment := python_env h;
       bi_packages := packages_info |} in
  let changes := generate_change_report backup_info in
  let summary := generate_backup_summary backup_info changes in
  writable_below backup_dir (join backup_dir "backup_record.md") target_dir ;;
  ret {| br_backup_dir := backup_dir;
         br_info := backup_info;
         br_changes := changes;
         br_summary := summary;
         br_requirements := write_requirements packages_info env_info_name;
         br_target_dir := write_manifest backup_dir backup_info target_dir |}.

(** *** Retention *)

(** An entry directly under the destination root: a directory or a
    regular file, with [os.path.getmtime]. *)
Record entry := {
  e_name : string;
  e_isdir : bool;
  e_mtime : Z
}.

Definition is_backup (item : entry) : bool :=
  e_isdir item || (negb (e_isdir item) && Py.endswith ".zip" (e_name item)).

(** Returns the entries deleted, in the order of deletion, and the
    listing that is left. *)
Definition cleanup_old_backups (target_dir : list entry) (keep_count : Z)
    : list entry * list entry :=
  let backup_dirs := List.filter is_backup target_dir in
  let backup_dirs := Py.sort_by (fun a b => (e_mtime b <=? e_mtime a)%Z) backup_dirs in
  let old_backups := Py.slice_from keep_count backup_dirs in
  (old_backups,
   List.filter (fun item => negb (bool_decide (e_name item ∈ e_name <$> old_backups)))
               target_dir).

(** *** Retrying *)

(** The loop of [wrapper]; [remaining] is [max_retries - retries]. *)
Fixpoint retry_loop {A} (func : M A) (delay remaining : nat) : M (option A) :=
  match remaining with
  | 0 => ret None
  | S remaining' =>
      fun w =>
        match func w with
        | (Ok a, w') => (Ok (Some a), w')
        | (Err e, w') =>
            match remaining' with
            | 0 => (Err e, w')
            | S _ => (time_sleep delay ;; retry_loop func delay remaining') w'
            end
        end
  end.

Definition retry_on_error (max_retries delay : nat) {A} (func : M A) : M (option A) :=
  retry_loop func delay max_retries.

Definition safe_copy_file (source target : string) : M (option unit) :=
  retry_on_error 3 1 (shutil_copy2 source target).

(** *** The lookup as the specification words it *)

(** Section 4.3: the greatest directory name among the directories that
    hold a readable manifest; directories with a missing or malformed
    manifest are passed over. *)
Definition spec_find_last_backup (target_dir : list (string * node))
    : option string * gmap string string :=
  let readable :=
    omap (fun e => match snd e with
                   | Directory (Manifest _) => Some (fst e)
                   | _ => None
                   end) target_dir in
  match Py.max_str readable with
  | None => (None, ∅)
  | Some last_backup_dir =>
      match lookup_node last_backup_dir target_dir with
      | Some (Directory (Manifest last_info)) =>
          (Some last_backup_dir, load_last_backup_hash last_info)
      | _ => (None, ∅)
      end
  end.

End FileCopy.

(** ** The environment restorer, [restore_env.py] *)

Module RestoreEnv.

(** What [main] does to the outside, in order. *)
Inductive action :=
| PrintNotFound (req_file : string)
| CreateVirtualEnv (env_path : string)
| InstallRequirements (env_path req_file : string).

(** [fnmatch] of a file name against [requirements_*.txt]. *)
Definition matches_requirements (name : string) : bool :=
  Py.startswith "requirements_" name && Py.endswith ".txt" name
  && (String.length "requirements_" + String.length ".txt" <=? String.length name).

(** [backup_dir.glob('requirements_*.txt')] over the names in the backup
    directory, in listing order. *)
Definition glob_requirements (backup_dir : list string) : list string :=
  List.filter matches_requirements backup_dir.

Definition exists_in (backup_dir : list string) (name : string) : bool :=
  bool_decide (name ∈ backup_dir).

(** Truth value of [args.env_name]: absent and empty both count as not
    given. *)
Definition given (env_name : option string) : option string :=
  match env_name with
  | Some EmptyString => None
  | other => other
  end.

Definition select_req_file (backup_dir : list string) (env_name : option string) : string :=
  match given env_name with
  | Some name => "requirements_" +:+ name +:+ ".txt"
  | None =>
      match glob_requirements backup_dir with
      | [] => "requirements.txt"
      | req_file :: _ => req_file
      end
  end.

Definition main (backup_dir : list string) (env_name : option string) : list action :=
  let req_file := select_req_file backup_dir env_name in
  if negb (exists_in backup_dir req_file) then [PrintNotFound req_file]
  else
    let env_name := default "restored_env" (given env_name) in
    let env_path := "~/.virtualenvs/" +:+ env_name in
    [CreateVirtualEnv env_path; InstallRequirements env_path req_file].



End RestoreEnv.

(** ** Vocabulary of the statements *)

Module Props.
Import FileCopy.

(** Number of records of ['files'] whose ['type'] is [ext]. *)
Definition count_ext (ext : string) (files : list file_info) : nat :=
  length (List.filter (fun r => String.eqb (fi_type r) ext) files).

(** [p.split('/')] *)
Fixpoint split_slash (p : string) : list string :=
  match p with
  | EmptyString => [EmptyString]
  | String c p' =>
      if Ascii.eqb c "/" then EmptyString :: split_slash p'
      else match split_slash p' with
           | x :: l => String c x :: l
           | [] => [String c EmptyString]
           end
  end.

(** The directory names a relative path passes through. *)
Definition dir_components (p : string) : list string :=
  removelast (split_slash p).

Fixpoint slash_free (s : string) : bool :=
  match s with
  | EmptyString => true
  | String c s' => negb (Ascii.eqb c "/") && slash_free s'
  end.

(** No file or directory name of the tree contains the separator. *)
Fixpoint names_ok (t : tree) : bool :=
  match t with
  | Dir files dirs =>
      forallb (fun e => slash_free (fst e)) files &&
      (fix all (ds : list (string * tree)) :=
         match ds with
         | [] => true
         | (d, sub) :: ds' => slash_free d && names_ok sub && all ds'
         end) dirs
  end.

(** The record [r] was made for a file that the pruned walk of
    [source_dir] lists, and carries that file's digest. *)
Definition recorded_from (exclude_folders : gset string) (source_dir : tree)
    (r : file_info) : Prop :=
  ∃ root dirs files file f,
    (root, dirs, files) ∈ walk exclude_folders [] source_dir ∧
    (file, f) ∈ files ∧
    fi_path r = relpath root file ∧
    fi_type r = Py.lower (Py.splitext file).2 ∧
    f_digest f = Some (fi_hash r).

(** What the loop of a run maintains: every record made so far stands for
  a walked file, has a recognized type, carries the verdict of
  [is_modified] against [last_backup_hash] and no
  ['existed_in_last_backup'] key; and the statistics count the records. *)
Definition record_ok (last_backup_hash : gmap string string)
    (exclude_folders : gset string) (source_dir : tree) (r : file_info) : Prop :=
  recorded_from exclude_folders source_dir r ∧
  fi_type r ∈ CODE_FILE_TYPES ∧
  fi_changed_since_last_backup r = is_modified last_backup_hash (fi_path r) (fi_hash r) ∧
  fi_existed_in_last_backup r = None.

Definition stats_ok (files : list file_info) (statistics : gmap string nat) : Prop :=
  ∀ ext, statistics !! ext =
         if decide (ext ∈ CODE_FILE_TYPES) then Some (count_ext ext files) else None.

Definition loop_inv (last_backup_hash : gmap string string)
    (exclude_folders : gset string) (source_dir : tree) (acc : progress) : Prop :=
  Forall (record_ok last_backup_hash exclude_folders source_dir) (pr_files acc) ∧
  stats_ok (pr_files acc) (pr_statistics acc).

(** [a] was modified no earlier than [b]. *)
Definition newer_first (a b : entry) : Prop := (e_mtime b <= e_mtime a)%Z.

(** [l2] holds only entries at least as old as every entry of [l1]. *)
Definition none_newer (l1 l2 : list entry) : Prop :=
  ∀ k d, k ∈ l1 → d ∈ l2 → (e_mtime d <= e_mtime k)%Z.

End Props.

(** ** Sample inputs *)

Module Samples.
Import FileCopy.

Definition quiet : world := {| copy_script := []; copied := []; slept := [] |}.

(** The first copy attempt fails, the next one would succeed. *)
Definition flaky : world := {| copy_script := [false; true]; copied := []; slept := [] |}.

Definition packages : list distribution :=
  [ {| pkg_key := "numpy"; pkg_version := "1.26.0";
       pkg_location := "/root/miniconda3/envs/LCYchat/lib/python3.10/site-packages" |};
    {| pkg_key := "mmcv"; pkg_version := "2.1.0";
       pkg_location := "/root/miniconda3/envs/openmmlab/lib/python3.8/site-packages" |};
    {| pkg_key := "pip"; pkg_version := "23.0"; pkg_location := "/usr/lib/python3/dist-packages" |} ].

Definition at_time (stamp text : string) : host :=
  {| now_stamp := stamp; now_text := text; python_env := "3.10.12";
     working_set := packages; lcychat_first := true |}.

Definition first_time : host := at_time "20240101_120000" "2024-01-01 12:00:00".
Definition second_time : host := at_time "20240101_120005" "2024-01-01 12:00:05".

Definition a_py (digest : string) : file :=
  {| f_digest := Some digest; f_size := 120; f_modified := "2023-12-31 09:00:00" |}.

(** A source tree with one recognized file at the top, one in a kept
    directory and one inside an excluded directory. *)
Definition project (digest : string) : tree :=
  Dir [("a.py", a_py digest); ("notes.bin", a_py "00")]
      [("node_modules", Dir [("index.js", a_py "77")] []);
       ("docs", Dir [("README.MD", a_py "55")] [])].

Definition excluded : option (list string) := Some ["node_modules"; ".git"].

Definition run (h : host) (source_dir : tree) (target_dir : list (string * node))
    (w : world) : result backup_run * world :=
  copy_code_files h source_dir target_dir "nightly" None excluded None w.

Definition no_run : backup_run :=
  {| br_backup_dir := "";
     br_info := {| bi_timestamp := ""; bi_description := ""; bi_tags := [];
                   bi_files := []; bi_statistics := ∅; bi_exclude_folders := [];
                   bi_environment := ""; bi_packages := [] |};
     br_changes := {| cr_new := []; cr_modified := []; cr_unchanged := [] |};
     br_summary := {| bs_timestamp := ""; bs_total_files := 0; bs_total_size := 0;
                      bs_new_files := 0; bs_modified_files := 0;
                      bs_unchanged_files := 0; bs_file_types := ∅ |};
     br_requirements := [];
     br_target_dir := [] |}.

Definition returned (r : result backup_run * world) : backup_run :=
  match r with
  | (Ok out, _) => out
  | (Err _, _) => no_run
  end.

(** A first run on [project "H1"] into an empty destination root, and the
  root it leaves. *)
Definition first_out : backup_run :=
  Eval vm_compute in returned (run first_time (project "H1") [] quiet).

Definition first_world : world :=
  Eval vm_compute in snd (run first_time (project "H1") [] quiet).

Definition after_first_run : list (string * node) :=
  Eval vm_compute in br_target_dir first_out.

(** A second run, five seconds later, on the unchanged tree. *)
Definition second_out : backup_run :=
  Eval vm_compute in returned (run second_time (project "H1") after_first_run first_world).

Definition second_world : world :=
  Eval vm_compute in snd (run second_time (project "H1") after_first_run first_world).

(** A second run after [a.py] was edited. *)
Definition second_out_edited : backup_run :=
  Eval vm_compute in returned (run second_time (project "H2") after_first_run first_world).

(** A destination root whose newest directory comes from an interrupted
    run and holds no manifest, below an older complete backup. *)
Definition old_manifest : backup_info :=
  {| bi_timestamp := "2023-12-30 08:00:00"; bi_description := ""; bi_tags := [];
     bi_files := [ {| fi_path := "a.py"; fi_type := ".py"; fi_size := 120;
                      fi_hash := "H1"; fi_modified := "2023-12-29 10:00:00";
                      fi_changed_since_last_backup := true;
                      fi_existed_in_last_backup := None |} ];
     bi_statistics := ∅; bi_exclude_folders := []; bi_environment := "";
     bi_packages := [] |}.



Definition shelf : list entry :=
  [ {| e_name := "20240101_120000"; e_isdir := true; e_mtime := 100 |};
    {| e_name := "20240102_120000.zip"; e_isdir := false; e_mtime := 200 |};
    {| e_name := "notes.txt"; e_isdir := false; e_mtime := 50 |};
    {| e_name := "20240103_120000"; e_isdir := true; e_mtime := 300 |} ].


End Samples.

(** ** The files of a run *)

Module Run.
Import FileCopy.

(** The test of line 148 on a file name. *)
Definition recognized (file : string) : bool :=
  bool_decide (Py.lower (Py.splitext file).2 ∈ CODE_FILE_TYPES).

(** The files the loop of a run reaches, in its order: directory by
    directory as the pruned walk yields them, the files of a directory in
    listing order, those of a recognized type only. *)
Definition candidates (exclude_folders : gset string) (source_dir : tree)
    : list (list string * (string * file)) :=
  flat_map (fun '(root, _, files) =>
              (fun entry => (root, entry))
                <$> List.filter (fun entry => recognized (fst entry)) files)
           (walk exclude_folders [] source_dir).

(** The record lines 175-182 build for a candidate whose digest was read. *)
Definition record_of (last_backup_hash : gmap string string)
    (c : list string * (string * file)) : file_info :=
  {| fi_path := relpath (fst c) (fst (snd c));
     fi_type := Py.lower (Py.splitext (fst (snd c))).2;
     fi_size := f_size (snd (snd c));
     fi_hash := default EmptyString (f_digest (snd (snd c)));
     fi_modified := f_modified (snd (snd c));
     fi_changed_since_last_backup :=
       is_modified last_backup_hash (relpath (fst c) (fst (snd c)))
                   (default EmptyString (f_digest (snd (snd c))));
     fi_existed_in_last_backup := None |}.

(** Source and target of the copy of line 170 for a candidate. *)
Definition copy_of (backup_dir : string) (c : list string * (string * file))
    : string * string :=
  (relpath (fst c) (fst (snd c)),
   join (join backup_dir (relroot (fst c))) (fst (snd c))).

Definition readable (c : list string * (string * file)) : Prop :=
  is_Some (f_digest (snd (snd c))).

(** What a stretch of the loop over the candidates [cs] does, from the
    accumulator [acc] and the world [w] to [acc'] and [w']: it reads every
    digest, appends the records in order, uses one copy outcome per
    candidate, none of them a failure, logs the copies in order and does
    not sleep. *)
Definition traced (backup_dir : string) (last_backup_hash : gmap string string)
    (cs : list (list string * (string * file)))
    (acc acc' : progress) (w w' : world) : Prop :=
  Forall readable cs ∧
  pr_files acc' = pr_files acc ++ (record_of last_backup_hash <$> cs) ∧
  (false ∉ take (length cs) (copy_script w)) ∧
  copy_script w' = drop (length cs) (copy_script w) ∧
  copied w' = copied w ++ (copy_of backup_dir <$> cs) ∧
  slept w' = slept w.

End Run.

(** ** Counting failures *)

Module Retry.

(** The number of failing copy outcomes at the head of a script. *)
Fixpoint leading_failures (script : list bool) : nat :=
  match script with
  | false :: script' => S (leading_failures script')
  | _ => 0
  end.

End Retry.

(** ** Vocabulary for package selection *)

Module Packages.
Import FileCopy.

(** The entry line 59-63 makes for a distribution when no name is given. *)
Definition plain (pkg : distribution) : package_info :=
  {| p_name := pkg_key pkg; p_version := pkg_version pkg;
     p_location := pkg_location pkg; p_environment := None |}.

(** The entry lines 51-57 make for a distribution found in [env]. *)
Definition labelled (env : string) (pkg : distribution) : package_info :=
  {| p_name := pkg_key pkg; p_version := pkg_version pkg;
     p_location := pkg_location pkg; p_environment := Some env |}.

(** The first name, in iteration order, that the lowercased location of
    the distribution contains. *)
Definition first_match (names : list string) (pkg : distribution) : option string :=
  List.find (fun env_name => Py.contains env_name (Py.lower (pkg_location pkg))) names.

Definition is_upper (c : ascii) : bool :=
  ((65 <=? Ascii.N_of_ascii c) && (Ascii.N_of_ascii c <=? 90))%N.

(** The string has a letter of [A-Z]. *)
Fixpoint has_upper (s : string) : bool :=
  match s with
  | EmptyString => false
  | String c s' => is_upper c || has_upper s'
  end.

(** The string holds ASCII characters only.  On such a string [str.lower]
    changes the letters [A-Z] and nothing else, as [Py.lower] does. *)
Fixpoint ascii_only (s : string) : bool :=
  match s with
  | EmptyString => true
  | String c s' => (Ascii.N_of_ascii c <? 128)%N && ascii_only s'
  end.

(** The key under which lines 270-274 file a package. *)
Definition env_of (pkg : package_info) : string :=
  default "unknown" (p_environment pkg).

(** The line written for a package. *)
Definition line (pkg : package_info) : string :=
  p_name pkg +:+ "==" +:+ p_version pkg.

(** What the grouping loop maintains after the packages [seen]. *)
Definition grouped (seen : list package_info)
    (env_packages : list (string * list package_info)) : Prop :=
  NoDup (fst <$> env_packages) ∧
  (∀ env pkgs, (env, pkgs) ∈ env_packages →
     ∀ p, p ∈ pkgs → env_of p = env ∧ p ∈ seen) ∧
  (∀ p, p ∈ seen → ∃ pkgs, (env_of p, pkgs) ∈ env_packages ∧ p ∈ pkgs) ∧
  sum_list (length ∘ snd <$> env_packages) = length seen.

End Packages.

(** ** The viewer, [view_backup.py] *)

Module ViewBackup.
Import FileCopy.

(** [load_backup_info] on the directory named [backup_dir] under a root:
    [None] when it holds no manifest file. *)
Definition load_backup_info (root : list (string * node)) (backup_dir : string)
    : result (option backup_info) :=
  match lookup_node backup_dir root with
  | Some (Directory (Manifest info)) => Ok (Some info)
  | Some (Directory Malformed) => Err (ManifestError backup_dir)
  | _ => Ok None
  end.

(** The three numbers [show_backup_summary] prints. *)
Record shown := {
  sh_total_files : nat;
  sh_total_size : nat;
  sh_modified_files : nat
}.

Definition show_backup_summary (backup_info : backup_info) : shown :=
  {| sh_total_files := length (bi_files backup_info);
     sh_total_size := foldr (fun f total => fi_size f + total) 0 (bi_files backup_info);
     sh_modified_files :=
       foldr (fun f total => (if fi_changed_since_last_backup f then 1 else 0) + total)
             0 (bi_files backup_info) |}.

(** [main]: [None] stands for the message that no manifest was found. *)
Definition main (root : list (string * node)) (backup_dir : string)
    : result (option shown) :=
  match load_backup_info root backup_dir with
  | Ok (Some backup_info) => Ok (Some (show_backup_summary backup_info))
  | Ok None => Ok None
  | Err e => Err e
  end.

End ViewBackup.

(** ** Archiving and restoring, [file_copy.py] *)

Module Archive.
Import FileCopy.

Inductive failure :=
| ValueError                       (* the backup path is empty *)
| ReadError (path : string)        (* a file to archive cannot be read *)
| FileExistsError                  (* [copytree] into an existing directory *)
| IsADirectoryError                (* a directory opened as a zip file *)
| NotADirectoryError               (* a zip file given to [copytree] *)
| ShutilError (paths : gset string). (* files [copytree] could not copy *)

Inductive outcome (A : Type) :=
| Done (a : A)
| Failed (f : failure).
Arguments Done {A} a.
Arguments Failed {A} f.

(** What is stored at a backup path: a directory with its files, or a zip
    file with its members, each an archive name and a file. *)
Inductive stored :=
| Folder (content : tree)
| ZipFile (members : list (string * file)).

(** The files below a directory with their paths relative to it, as the
    unpruned [os.walk] meets them. *)
Definition files_of (content : tree) : list (string * file) :=
  flat_map (fun '(root, _, files) =>
              (fun entry => (relpath root (fst entry), snd entry)) <$> files)
           (walk ∅ [] content).



(** [extractall]: every member is written under the restore directory,
    over what is there, with the time of extraction as its modification
    time. *)
Definition extractall (members : list (string * file)) (now : string)
    (restore_dir : gmap string file) : gmap string file :=
  foldl (fun dir '(arcname, f) =>
           <[arcname := {| f_digest := f_digest f; f_size := f_size f;
                           f_modified := now |}]> dir)
        restore_dir members.

(** [shutil.copytree] into a directory that does not exist yet.  A file
    that cannot be read is passed over and noted; when the tree has been
    gone through, the call raises [shutil.Error] with the files noted if
    there is one, and otherwise has copied every file with its
    attributes. *)
Definition copytree (content : tree) : outcome (gmap string file) :=
  match List.filter (fun e => bool_decide (f_digest (snd e) = None)) (files_of content) with
  | [] => Done (foldl (fun dir '(path, f) => <[path := f]> dir) ∅ (files_of content))
  | errors => Failed (ShutilError (list_to_set (fst <$> errors)))
  end.

(** [restore_dir] is [None] when the directory does not exist yet.  The
    loop over the requirements files that follows the restoring computes
    a name per file and drops it; it is left out. *)
Definition restore_backup (backup_path : string) (backup : stored) (now : string)
    (restore_dir : option (gmap string file)) : outcome (gmap string file) :=
  if Py.endswith ".zip" backup_path then
    match backup with
    | ZipFile members => Done (extractall members now (default ∅ restore_dir))
    | Folder _ => Failed IsADirectoryError
    end
  else
    match backup with
    | Folder content =>
        match restore_dir with
        | None => copytree content
        | Some _ => Failed FileExistsError
        end
    | ZipFile _ => Failed NotADirectoryError
    end.


End Archive.

(** ** Verifying and bulk copying, [file_copy.py] *)

Module Checks.
Import FileCopy.
Local Open Scope py_scope.

(** An entry of ['errors']: a file of the manifest missing from the backup
    directory, or there with another digest. *)
Inductive complaint :=
| Missing (path : string)
| Mismatch (path : string).

Record verification := {
  success : bool;
  errors : list complaint
}.

(** [verify_backup]; the backup directory is given by its files under
    their relative paths.  [source_dir] is joined with every path, and the
    result is not used. *)
Definition verify_backup (source_dir : tree) (backup_dir : gmap string file)
    (backup_info : backup_info) : result verification :=
  foldl (fun results file_info =>
           match results with
           | Err e => Err e
           | Ok verification_results =>
               match backup_dir !! fi_path file_info with
               | None =>
                   Ok {| success := false;
                         errors := errors verification_results
                                   ++ [Missing (fi_path file_info)] |}
               | Some backup_file =>
                   match f_digest backup_file with
                   | None => Err (FileAccessError (fi_path file_info))
                   | Some backup_hash =>
                       if negb (String.eqb backup_hash (fi_hash file_info))
                       then Ok {| success := false;
                                  errors := errors verification_results
                                            ++ [Mismatch (fi_path file_info)] |}
                       else Ok verification_results
                   end
               end
           end)
        (Ok {| success := true; errors := [] |})
        (bi_files backup_info).

(** [copy_with_progress] *)
Definition copy_with_progress (files_to_copy : list (string * string)) : M unit :=
  foldM (fun _ '(source, target) => shutil_copy2 source target) tt files_to_copy.

(** The position of the first failing outcome among the first [n] of a
    script. *)
Fixpoint first_failure (script : list bool) (n : nat) : option nat :=
  match n, script with
  | S n', false :: _ => Some 0
  | S n', true :: script' => S <$> first_failure script' n'
  | _, _ => None
  end.

(** Is the record's file in the backup directory with the recorded digest? *)
Definition intact (backup_dir : gmap string file) (r : file_info) : Prop :=
  ∃ f, backup_dir !! fi_path r = Some f ∧ f_digest f = Some (fi_hash r).

(** *** What the copies of a run leave in its backup directory *)

(** [p] without the leading [prefix], when it starts with it. *)
Fixpoint strip_prefix (prefix p : string) : option string :=
  match prefix, p with
  | EmptyString, _ => Some p
  | String a prefix', String b p' =>
      if Ascii.eqb a b then strip_prefix prefix' p' else None
  | String _ _, EmptyString => None
  end.

(** A path with its empty and [.] components dropped: it names the same
    file. *)
Definition collapse (p : string) : string :=
  String.concat "/"
    (List.filter (fun c => negb (String.eqb c "." || String.eqb c ""))
                 (Props.split_slash p)).

(** The path of [target] relative to [backup_dir], for a target written
    as [backup_dir/...]. *)
Definition below (backup_dir target : string) : option string :=
  collapse <$> strip_prefix (backup_dir +:+ "/") target.

(** A name a directory entry can have. *)
Definition entry_name (s : string) : bool :=
  Props.slash_free s && negb (String.eqb s "") && negb (String.eqb s ".")
  && negb (String.eqb s "..").

(** Every directory and file name of the tree is such a name. *)
Definition proper (t : tree) : bool :=
  forallb (fun '(root, _, files) =>
             forallb entry_name root && forallb (fun e => entry_name (fst e)) files)
          (walk ∅ [] t).

(** The files of a tree under their relative paths, as opening a path
    finds them. *)
Definition at_paths (source_dir : tree) : gmap string file :=
  list_to_map (Archive.files_of source_dir).

(** What a sequence of [shutil.copy2] calls, each a source path below the
    source directory and a target path, makes of the directory
    [backup_dir], given by its files under their relative paths: a copy
    puts the source file, content and attributes, at its target, over
    what is there. *)
Definition landed (backup_dir : string) (source_dir : tree)
    (copies : list (string * string)) (before : gmap string file) : gmap string file :=
  foldl (fun dir '(source, target) =>
           match at_paths source_dir !! source, below backup_dir target with
           | Some f, Some path => <[path := f]> dir
           | _, _ => dir
           end) before copies.

(** The files a run writes into its backup directory after the loop, by
    name: the record, the requirements files, the environment
    description and the manifest. *)
Definition own_files (out : backup_run) : list string :=
  ["backup_record.md"] ++ (fst <$> br_requirements out)
  ++ ["environment_info.json"; "backup_info.json"].

End Checks.

(** ** More sample inputs *)

Module MoreSamples.
Import FileCopy.

(** A file that cannot be opened. *)
Definition locked : file :=
  {| f_digest := None; f_size := 64; f_modified := "2023-12-31 09:00:00" |}.

Definition locked_project : tree :=
  Dir [("a.py", Samples.a_py "H1"); ("secret.py", locked)] [].

(** The sample project before [docs] was added. *)
Definition early_project : tree :=
  Dir [("a.py", Samples.a_py "H1"); ("notes.bin", Samples.a_py "00")] [].

(** A backup directory as a run leaves it. *)
Definition backed_up : tree :=
  Dir [("a.py", Samples.a_py "H1"); ("backup_info.json", Samples.a_py "M1")]
      [("docs", Dir [("README.MD", Samples.a_py "55")] []); ("empty", Dir [] [])].

End MoreSamples.


(** ** The loop of a backup run *)

Import FileCopy Props.

Lemma foldM_invariant {A S} (Inv : S → Prop) (f : S → A → M S) (l : list A) :
  (∀ s x w s' w', x ∈ l → Inv s → f s x w = (Ok s', w') → Inv s') →
  ∀ s w s' w', Inv s → foldM f s l w = (Ok s', w') → Inv s'.
Proof.
  induction l as [|x l IH]; intros Hstep s w s' w' Hs Hrun; simpl in Hrun.
  - unfold ret in Hrun. by simplify_eq.
  - unfold bind in Hrun. destruct (f s x w) as [[s1|e] w1] eqn:Hf; [|done].
    eapply IH; [| |exact Hrun].
    + intros s0 y w0 s0' w0' Hy. apply Hstep. by right.
    + eapply Hstep; [|exact Hs|exact Hf]. by left.
Qed.

Lemma count_ext_app ext files1 files2 :
  count_ext ext (files1 ++ files2) = count_ext ext files1 + count_ext ext files2.
Proof. unfold count_ext. by rewrite List.filter_app, length_app. Qed.

Lemma count_ext_one ext r :
  count_ext ext [r] = if decide (fi_type r = ext) then 1 else 0.
Proof.
  unfold count_ext. simpl.
  destruct (String.eqb_spec (fi_type r) ext); case_decide; done.
Qed.

Lemma stats_ok_init : stats_ok [] (gset_to_gmap 0 CODE_FILE_TYPES).
Proof.
  intros ext. rewrite lookup_gset_to_gmap.
  case_decide; [by rewrite option_guard_True|by rewrite option_guard_False].
Qed.

Lemma backup_file_inv backup_dir target_dir last exclude source_dir root dirs files
    acc entry w acc' w' :
  (root, dirs, files) ∈ walk exclude [] source_dir →
  entry ∈ files →
  loop_inv last exclude source_dir acc →
  backup_file backup_dir target_dir last root acc entry w = (Ok acc', w') →
  loop_inv last exclude source_dir acc'.
Proof.
  intros Hwalk Hentry [Hrec Hstat]. unfold backup_file.
  case_decide as Hext; [|unfold ret; intros; by simplify_eq].
  unfold bind, calculate_file_hash, writable_below, shutil_copy2, lift, ret, raise.
  destruct (f_digest entry.2) as [digest|] eqn:Hdig; [|done].
  destruct (lookup_node backup_dir target_dir) as [[|m]|]; [done| |done].
  destruct (pr_statistics acc !! _) as [count|] eqn:Hcount;
    [|by destruct (copy_script w) as [|[] ?]].
  intros Hrun.
  assert (acc' = {| pr_files := pr_files acc ++
                     [{| fi_path := relpath root entry.1;
                         fi_type := Py.lower (Py.splitext entry.1).2;
                         fi_size := f_size entry.2;
                         fi_hash := digest;
                         fi_modified := f_modified entry.2;
                         fi_changed_since_last_backup :=
                           is_modified last (relpath root entry.1) digest;
                         fi_existed_in_last_backup := None |}];
                   pr_statistics :=
                     <[Py.lower (Py.splitext entry.1).2 := S count]> (pr_statistics acc) |})
    as ->.
  { destruct (copy_script w) as [|[] ?]; by simplify_eq. }
  clear Hrun. split; simpl.
  - apply Forall_app. split; [done|]. apply Forall_singleton.
    split_and!; simpl; try done.
    exists root, dirs, files, entry.1, entry.2. by destruct entry.
  - intros ext. rewrite count_ext_app, count_ext_one. simpl.
    specialize (Hstat ext).
    destruct (decide (Py.lower (Py.splitext entry.1).2 = ext)) as [<-|Hne].
    + rewrite lookup_insert_eq. rewrite Hcount in Hstat.
      rewrite decide_True in Hstat |- * by done. simplify_eq. f_equal. lia.
    + rewrite lookup_insert_ne by done. rewrite Hstat.
      case_decide; [f_equal; lia|done].
Qed.

Lemma walk_loop_inv backup_dir target_dir last exclude source_dir acc w acc' w' :
  loop_inv last exclude source_dir acc →
  foldM (fun acc '(root, _, files) =>
           foldM (backup_file backup_dir target_dir last root) acc files)
        acc (walk exclude [] source_dir) w = (Ok acc', w') →
  loop_inv last exclude source_dir acc'.
Proof.
  apply (foldM_invariant (loop_inv last exclude source_dir)).
  intros s [[root dirs] files] w1 s1 w1' Hin Hs.
  apply (foldM_invariant (loop_inv last exclude source_dir)); [|done].
  intros s2 entry w2 s2' w2' Hentry Hs2. by eapply backup_file_inv.
Qed.

(** What every completed run satisfies. *)
Lemma copy_code_files_inv h source_dir target_dir description tags exclude_folders
    env_info_name w out w' :
  copy_code_files h source_dir target_dir description tags exclude_folders
                  env_info_name w = (Ok out, w') →
  ∃ last_backup_dir last_backup_hash,
    find_last_backup (ensure_backup_dir (now_stamp h) target_dir)
      = Ok (last_backup_dir, last_backup_hash) ∧
    Forall (record_ok last_backup_hash (list_to_set (default [] exclude_folders)) source_dir)
           (bi_files (br_info out)) ∧
    stats_ok (bi_files (br_info out)) (bi_statistics (br_info out)) ∧
    br_changes out = generate_change_report (br_info out) ∧
    bi_packages (br_info out)
      = get_installed_packages (working_set h) (Some (hard_coded_env_names h)) ∧
    br_requirements out
      = write_requirements (bi_packages (br_info out)) (Some (hard_coded_env_names h)).
Proof.
  unfold copy_code_files, bind, lift.
  destruct (find_last_backup _) as [[last_dir last_hash]|e] eqn:Hfind; [|done].
  destruct (foldM _ _ _ w) as [[final|e] w1] eqn:Hloop; [|done].
  destruct (writable_below _ _ _ w1) as [[[]|e] w2]; [|done].
  unfold ret. intros Hrun. simplify_eq. simpl.
  exists last_dir, last_hash. split; [done|].
  apply walk_loop_inv in Hloop as [Hrec Hstat].
  - done.
  - split; [constructor|apply stats_ok_init].
Qed.

(** ** Change detection *)

Lemma is_modified_spec (last_backup_hash : gmap string string) relative_path file_hash :
  is_modified last_backup_hash relative_path file_hash = true ↔
  last_backup_hash !! relative_path = None ∨
  ∃ h, last_backup_hash !! relative_path = Some h ∧ h ≠ file_hash.
Proof.
  unfold is_modified. destruct (last_backup_hash !! relative_path) as [h0|].
  - destruct (String.eqb_spec h0 file_hash) as [->|Hne]; simpl; split.
    + done.
    + intros [|(h & ? & ?)]; [done|]. by simplify_eq.
    + intros _. right. by exists h0.
    + done.
  - split; [by left|done].
Qed.

Lemma lookup_node_elem name (l : list (string * node)) n :
  lookup_node name l = Some n → (name, n) ∈ l.
Proof.
  unfold lookup_node. destruct (List.find _ l) as [[name' n']|] eqn:Hfind; [|done].
  simpl. intros ?; simplify_eq.
  apply List.find_some in Hfind as [Hin Heq]. simpl in Heq.
  apply String.eqb_eq in Heq as ->. by apply list_elem_of_In.
Qed.

(** A destination root in which no directory holds a manifest file. *)
Lemma find_last_backup_no_manifest (target_dir : list (string * node)) :
  (∀ name m, (name, Directory m) ∈ target_dir → m = NoManifest) →
  ∃ last_backup_dir, find_last_backup target_dir = Ok (last_backup_dir, ∅).
Proof.
  intros Hnone. unfold find_last_backup.
  destruct (Py.max_str _) as [d|]; [|by eexists].
  destruct (lookup_node d target_dir) as [[|m]|] eqn:Hlook; try by eexists.
  apply lookup_node_elem, Hnone in Hlook as ->. by eexists.
Qed.

Lemma ensure_backup_dir_elem backup_dir (target_dir : list (string * node)) name n :
  (name, n) ∈ ensure_backup_dir backup_dir target_dir →
  (name, n) ∈ target_dir ∨ n = Directory NoManifest.
Proof.
  unfold ensure_backup_dir. destruct (lookup_node _ _); [by left|].
  rewrite elem_of_app, list_elem_of_singleton. intros [|]; [by left|right]. by simplify_eq.
Qed.

(** Lines 156-159, relative to the mapping the lookup of a completed run
  returned, whatever directory it was read from: a record is marked
  changed exactly when its path is absent from that mapping or mapped to
  a hash other than the record's own; every record carries the digest of
  the source file it was made for; and when no directory of the
  destination root holds a manifest, every record is marked changed. *)
Lemma flag_follows_loaded_mapping h source_dir target_dir description tags
    exclude_folders env_info_name w out w' :
  copy_code_files h source_dir target_dir description tags exclude_folders
                  env_info_name w = (Ok out, w') →
  ∃ last_backup_dir last_backup_hash,
    find_last_backup (ensure_backup_dir (now_stamp h) target_dir)
      = Ok (last_backup_dir, last_backup_hash) ∧
    (∀ r, r ∈ bi_files (br_info out) →
       recorded_from (list_to_set (default [] exclude_folders)) source_dir r ∧
       (fi_changed_since_last_backup r = true ↔
          last_backup_hash !! fi_path r = None ∨
          ∃ old, last_backup_hash !! fi_path r = Some old ∧ old ≠ fi_hash r)) ∧
    ((∀ name m, (name, Directory m) ∈ target_dir → m = NoManifest) →
     last_backup_hash = ∅ ∧
     ∀ r, r ∈ bi_files (br_info out) → fi_changed_since_last_backup r = true).
Proof.
  intros Hrun.
  apply copy_code_files_inv in Hrun as (d & last & Hfind & Hrec & _).
  exists d, last. split; [done|].
  rewrite Forall_forall in Hrec.
  assert (∀ r, r ∈ bi_files (br_info out) →
            fi_changed_since_last_backup r = true ↔
            last !! fi_path r = None ∨ ∃ old, last !! fi_path r = Some old ∧ old ≠ fi_hash r)
    as Hiff.
  { intros r Hr. destruct (Hrec r Hr) as (_ & _ & -> & _). apply is_modified_spec. }
  split.
  - intros r Hr. split; [by destruct (Hrec r Hr)|by apply Hiff].
  - intros Hnone.
    destruct (find_last_backup_no_manifest (ensure_backup_dir (now_stamp h) target_dir))
      as [d' Hfind'].
    { intros name m [Hin|?]%ensure_backup_dir_elem; [by eapply Hnone|by simplify_eq]. }
    rewrite Hfind in Hfind'. simplify_eq. split; [done|].
    intros r Hr. apply Hiff; [done|]. left. apply lookup_empty.
Qed.

(** C2. Change detection contract, evaluated on the second of two runs
  over an unchanged tree.  The destination root holds one backup, the
  first run's; its manifest is the most recent prior manifest and maps
  [a.py] to H1.  [a.py] is a candidate of the second run and its digest
  is H1.  The second run loads its mapping from the directory it has
  just made, so the mapping is empty, and it records [a.py] as changed:
  the record is marked changed although its path is in the prior
  manifest's mapping with the hash the file has. *)
Theorem C2_file_in_prior_manifest_is_marked_changed :
  br_target_dir Samples.first_out
    = [("20240101_120000", Directory (Manifest (br_info Samples.first_out)))] ∧
  spec_find_last_backup (br_target_dir Samples.first_out)
    = (Some "20240101_120000", load_last_backup_hash (br_info Samples.first_out)) ∧
  load_last_backup_hash (br_info Samples.first_out) !! "a.py" = Some "H1" ∧
  Run.candidates (list_to_set (default [] Samples.excluded)) (Samples.project "H1")
    = [([], ("a.py", Samples.a_py "H1")); (["docs"], ("README.MD", Samples.a_py "55"))] ∧
  f_digest (Samples.a_py "H1") = Some "H1" ∧
  copy_code_files Samples.second_time (Samples.project "H1")
                  (br_target_dir Samples.first_out) "nightly" None
                  Samples.excluded None Samples.first_world
    = (Ok Samples.second_out, Samples.second_world) ∧
  find_last_backup (ensure_backup_dir (now_stamp Samples.second_time)
                                      (br_target_dir Samples.first_out))
    = Ok (Some "20240101_120005", ∅) ∧
  ∃ r, bi_files (br_info Samples.second_out) !! 0 = Some r ∧
       fi_path r = "a.py" ∧
       fi_hash r = "H1" ∧
       fi_changed_since_last_backup r = true ∧
       ¬ (fi_changed_since_last_backup r = true ↔
            load_last_backup_hash (br_info Samples.first_out) !! fi_path r = None ∨
            ∃ old, load_last_backup_hash (br_info Samples.first_out) !! fi_path r
                     = Some old ∧ old ≠ fi_hash r).
Proof.
  split_and!; try (vm_compute; reflexivity).
  eexists. split; [vm_compute; reflexivity|]. split_and!; try reflexivity.
  intros [Hchanged _]. destruct (Hchanged eq_refl) as [Hnone|(old & Hold & Hne)].
  - vm_compute in Hnone. discriminate Hnone.
  - vm_compute in Hold. apply Hne. by injection Hold as <-.
Qed.

(** ** Statistics *)

Lemma count_ext_unrecognized ext (files : list file_info) :
  ext ∉ CODE_FILE_TYPES →
  Forall (fun r => fi_type r ∈ CODE_FILE_TYPES) files →
  count_ext ext files = 0.
Proof.
  intros Hext. induction 1 as [|r files Hr _ IH]; [done|].
  change (r :: files) with ([r] ++ files).
  rewrite count_ext_app, count_ext_one, IH.
  case_decide; [by subst|done].
Qed.

(** C7. Manifest counting invariant: in the manifest of a completed run the
  statistics hold, for every recognized extension, exactly the number of
  records of that extension; they hold no other key, and no record has
  another extension; every record's extension is recognized. *)
Theorem C7_manifest_counting h source_dir target_dir description tags
    exclude_folders env_info_name w out w' :
  copy_code_files h source_dir target_dir description tags exclude_folders
                  env_info_name w = (Ok out, w') →
  (∀ ext, ext ∈ CODE_FILE_TYPES →
     bi_statistics (br_info out) !! ext = Some (count_ext ext (bi_files (br_info out)))) ∧
  (∀ ext, ext ∉ CODE_FILE_TYPES →
     bi_statistics (br_info out) !! ext = None ∧
     count_ext ext (bi_files (br_info out)) = 0) ∧
  (∀ r, r ∈ bi_files (br_info out) → fi_type r ∈ CODE_FILE_TYPES).
Proof.
  intros Hrun.
  apply copy_code_files_inv in Hrun as (d & last & _ & Hrec & Hstat & _).
  assert (Forall (fun r => fi_type r ∈ CODE_FILE_TYPES) (bi_files (br_info out))) as Htypes.
  { eapply Forall_impl; [exact Hrec|]. by intros r (_ & ? & _). }
  split_and!.
  - intros ext Hext. rewrite (Hstat ext). by rewrite decide_True.
  - intros ext Hext. rewrite (Hstat ext). rewrite decide_False by done.
    split; [done|]. by apply count_ext_unrecognized.
  - by apply Forall_forall.
Qed.

Lemma C7_manifest_counting_witness :
  copy_code_files Samples.first_time (Samples.project "H1") [] "nightly" None
                  Samples.excluded None Samples.quiet
    = (Ok Samples.first_out, Samples.first_world) ∧
  bi_statistics (br_info Samples.first_out) !! ".py" = Some 1 ∧
  count_ext ".py" (bi_files (br_info Samples.first_out)) = 1 ∧
  ∀ r, r ∈ bi_files (br_info Samples.first_out) → fi_type r ∈ CODE_FILE_TYPES.
Proof.
  split; [vm_compute; reflexivity|].
  destruct (C7_manifest_counting Samples.first_time (Samples.project "H1") []
              "nightly" None Samples.excluded None Samples.quiet Samples.first_out
              Samples.first_world) as (Hcount & _ & Htypes).
  { vm_compute. reflexivity. }
  split; [|split; [reflexivity|exact Htypes]].
  rewrite (Hcount ".py"); [reflexivity|]. vm_compute. tauto.
Defined.

(** ** The directory the lookup selects *)

Lemma max_str_fold_elem (x : string) (l : list string) :
  foldl (fun best d => if String.ltb best d then d else best) x l ∈ x :: l.
Proof.
  revert x. induction l as [|y l IH]; intros x; simpl; [by left|].
  destruct (String.ltb x y).
  - right. apply IH.
  - specialize (IH x). apply elem_of_cons in IH as [->|?]; [by left|by do 2 right].
Qed.

Lemma max_str_snoc (l : list string) (s : string) :
  (∀ d, d ∈ l → String.ltb d s = true) → Py.max_str (l ++ [s]) = Some s.
Proof.
  intros Hlt. destruct l as [|x l]; [done|]. simpl. f_equal.
  rewrite foldl_app. simpl. rewrite Hlt; [done|]. apply max_str_fold_elem.
Qed.

Lemma lookup_node_snoc name n (l : list (string * node)) :
  lookup_node name l = None → lookup_node name (l ++ [(name, n)]) = Some n.
Proof.
  unfold lookup_node. induction l as [|[name' n'] l IH]; simpl.
  - by rewrite String.eqb_refl.
  - destruct (String.eqb name' name); [done|apply IH].
Qed.

Lemma list_backup_dirs_snoc (l : list (string * node)) name m :
  list_backup_dirs (l ++ [(name, Directory m)]) = list_backup_dirs l ++ [name].
Proof. unfold list_backup_dirs. by rewrite omap_app. Qed.

(** The lookup runs after the new backup directory was made: when the
  stamp is new and greater than every directory name already there, the
  directory selected is the new, empty one. *)
Lemma find_last_backup_fresh stamp (target_dir : list (string * node)) :
  lookup_node stamp target_dir = None →
  (∀ d, d ∈ list_backup_dirs target_dir → String.ltb d stamp = true) →
  find_last_backup (ensure_backup_dir stamp target_dir) = Ok (Some stamp, ∅).
Proof.
  intros Hnew Hlt. unfold ensure_backup_dir, find_last_backup. rewrite Hnew.
  rewrite list_backup_dirs_snoc, max_str_snoc by done.
  by rewrite lookup_node_snoc.
Qed.

Lemma fresh_stamp_all_changed h source_dir target_dir description tags
    exclude_folders env_info_name w out w' :
  lookup_node (now_stamp h) target_dir = None →
  (∀ d, d ∈ list_backup_dirs target_dir → String.ltb d (now_stamp h) = true) →
  copy_code_files h source_dir target_dir description tags exclude_folders
                  env_info_name w = (Ok out, w') →
  ∀ r, r ∈ bi_files (br_info out) → fi_changed_since_last_backup r = true.
Proof.
  intros Hnew Hlt Hrun r Hr.
  apply copy_code_files_inv in Hrun as (d & last & Hfind & Hrec & _).
  rewrite find_last_backup_fresh in Hfind by done. simplify_eq.
  rewrite Forall_forall in Hrec. by destruct (Hrec r Hr) as (_ & _ & -> & _).
Qed.

(** C1. Idempotent re-run, evaluated: a first run on a tree and a second
  run five seconds later on the same tree.  The second run looks the
  previous backup up after it has made its own directory, selects that
  empty directory, loads no hash and marks every file as changed, although
  each file has the hash the first manifest records for its path. *)
Theorem C1_second_run_marks_every_file_changed :
  copy_code_files Samples.first_time (Samples.project "H1") [] "nightly" None
                  Samples.excluded None Samples.quiet
    = (Ok Samples.first_out, Samples.first_world) ∧
  copy_code_files Samples.second_time (Samples.project "H1")
                  (br_target_dir Samples.first_out) "nightly" None
                  Samples.excluded None Samples.first_world
    = (Ok Samples.second_out, Samples.second_world) ∧
  find_last_backup (ensure_backup_dir (now_stamp Samples.second_time)
                                      (br_target_dir Samples.first_out))
    = Ok (Some "20240101_120005", ∅) ∧
  (fun r => (fi_path r, fi_hash r)) <$> bi_files (br_info Samples.first_out)
    = [("a.py", "H1"); ("docs/README.MD", "55")] ∧
  (fun r => (fi_path r, fi_hash r, fi_changed_since_last_backup r))
    <$> bi_files (br_info Samples.second_out)
    = [("a.py", "H1", true); ("docs/README.MD", "55", true)].
Proof. split_and!; vm_compute; reflexivity. Qed.

(** ** The change report *)

Lemma change_report_fold (files : list file_info) (acc : change_report) :
  Forall (fun r => fi_existed_in_last_backup r = None) files →
  let step changes file_info :=
    if fi_changed_since_last_backup file_info then
      if negb (existed file_info)
      then {| cr_new := cr_new changes ++ [fi_path file_info];
              cr_modified := cr_modified changes;
              cr_unchanged := cr_unchanged changes |}
      else {| cr_new := cr_new changes;
              cr_modified := cr_modified changes ++ [fi_path file_info];
              cr_unchanged := cr_unchanged changes |}
    else {| cr_new := cr_new changes;
            cr_modified := cr_modified changes;
            cr_unchanged := cr_unchanged changes ++ [fi_path file_info] |} in
  cr_modified (foldl step acc files) = cr_modified acc ∧
  cr_new (foldl step acc files)
    = cr_new acc ++ (fi_path <$> List.filter fi_changed_since_last_backup files) ∧
  cr_unchanged (foldl step acc files)
    = cr_unchanged acc
      ++ (fi_path <$> List.filter (fun r => negb (fi_changed_since_last_backup r)) files).
Proof.
  intros Hnone step. revert acc.
  induction Hnone as [|r files Hr _ IH]; intros acc; simpl.
  - by rewrite !app_nil_r.
  - destruct (IH (step acc r)) as (-> & -> & ->). unfold step, existed. rewrite Hr.
    destruct (fi_changed_since_last_backup r); simpl;
      by rewrite <- ?app_assoc.
Qed.

(** In the report of every completed run the list of modified files is
  empty: every changed file is listed as new, whether or not the
  previous manifest had its path. *)
Lemma report_never_modified h source_dir target_dir description tags
    exclude_folders env_info_name w out w' :
  copy_code_files h source_dir target_dir description tags exclude_folders
                  env_info_name w = (Ok out, w') →
  cr_modified (br_changes out) = [] ∧
  cr_new (br_changes out)
    = fi_path <$> List.filter fi_changed_since_last_backup (bi_files (br_info out)).
Proof.
  intros Hrun.
  apply copy_code_files_inv in Hrun as (d & last & _ & Hrec & _ & -> & _).
  unfold generate_change_report.
  edestruct (change_report_fold (bi_files (br_info out))) as (-> & -> & _); [|done].
  eapply Forall_impl; [exact Hrec|]. by intros r (_ & _ & _ & ?).
Qed.

(** C4. New-versus-modified classification, evaluated: [a.py] is backed up
  with hash H1, edited, and backed up again with hash H2.  The second
  manifest marks it changed, the first manifest has its path, and the
  change report of the second run lists it under new and lists nothing
  under modified. *)
Theorem C4_edited_file_is_reported_new :
  fst (copy_code_files Samples.second_time (Samples.project "H2")
                       (br_target_dir Samples.first_out) "nightly" None
                       Samples.excluded None Samples.first_world)
    = Ok Samples.second_out_edited ∧
  (fun r => (fi_path r, fi_hash r)) <$> bi_files (br_info Samples.first_out)
    = [("a.py", "H1"); ("docs/README.MD", "55")] ∧
  (fun r => (fi_path r, fi_hash r, fi_changed_since_last_backup r))
    <$> bi_files (br_info Samples.second_out_edited)
    = [("a.py", "H2", true); ("docs/README.MD", "55", true)] ∧
  generate_change_report (br_info Samples.second_out_edited)
    = {| cr_new := ["a.py"; "docs/README.MD"]; cr_modified := []; cr_unchanged := [] |} ∧
  br_changes Samples.second_out_edited
    = generate_change_report (br_info Samples.second_out_edited).
Proof. split_and!; vm_compute; reflexivity. Qed.

(** ** Copying and retrying *)

(** A failing copy ends the loop body at once: one attempt, no delay. *)
Lemma backup_file_copy_failure backup_dir target_dir last root acc file f digest m
    script made naps :
  Py.lower (Py.splitext file).2 ∈ CODE_FILE_TYPES →
  f_digest f = Some digest →
  lookup_node backup_dir target_dir = Some (Directory m) →
  backup_file backup_dir target_dir last root acc (file, f)
              {| copy_script := false :: script; copied := made; slept := naps |}
    = (Err (CopyError (relpath root file)),
       {| copy_script := script; copied := made; slept := naps |}).
Proof.
  intros Hext Hdig Hdir. unfold backup_file. simpl. rewrite decide_True by done.
  unfold bind, calculate_file_hash, writable_below. by rewrite Hdig, Hdir.
Qed.

(** The wrapped copy makes at most three attempts and sleeps one second
  between two attempts. *)
Lemma safe_copy_file_bounded source target w :
  ∃ attempts,
    1 ≤ attempts ≤ 3 ∧
    slept (snd (safe_copy_file source target w))
      = slept w ++ replicate (attempts - 1) 1 ∧
    copy_script (snd (safe_copy_file source target w))
      = drop attempts (copy_script w).
Proof.
  destruct w as [script made naps].
  unfold safe_copy_file, retry_on_error, retry_loop, shutil_copy2, bind, time_sleep.
  simpl.
  destruct script as [|[] [|[] [|[] script]]]; simpl;
    first [ exists 1; split; [lia|]; split; [by rewrite ?app_nil_r|done]
          | exists 2; split; [lia|]; split; [by rewrite <- ?app_assoc|done]
          | exists 3; split; [lia|]; split; [by rewrite <- ?app_assoc|done] ].
Qed.

(** C5. Copy-retry policy, evaluated on a destination where the first copy
  attempt fails and a second attempt would succeed: the run stops with
  the copy error after that single attempt and without sleeping, while
  [safe_copy_file] on the same file sleeps one second, tries again and
  succeeds. *)
Theorem C5_engine_copy_is_not_retried :
  copy_code_files Samples.first_time (Samples.project "H1") [] "nightly" None
                  Samples.excluded None Samples.flaky
    = (Err (CopyError "a.py"),
       {| copy_script := [true]; copied := []; slept := [] |}) ∧
  safe_copy_file "a.py" "20240101_120000/./a.py" Samples.flaky
    = (Ok (Some tt),
       {| copy_script := [];
          copied := [("a.py", "20240101_120000/./a.py")];
          slept := [1] |}).
Proof. split; vm_compute; reflexivity. Qed.

(** ** The lookup, directory by directory *)









(** ** Traversal and exclusion *)

Lemma tree_nested_ind (P : tree → Prop) :
  (∀ files dirs, Forall (fun d => P (snd d)) dirs → P (Dir files dirs)) →
  ∀ t, P t.
Proof.
  intros Hdir.
  exact (fix IH (t : tree) : P t :=
           match t with
           | Dir files dirs =>
               Hdir files dirs
                 ((fix all (ds : list (string * tree)) : Forall (fun d => P (snd d)) ds :=
                     match ds with
                     | [] => List.Forall_nil _
                     | d :: ds' => List.Forall_cons _ d ds' (IH (snd d)) (all ds')
                     end) dirs)
           end).
Qed.

(** Every directory the walk visits is reached through directories whose
  names are not excluded, and the names it will descend into are not
  excluded either; in a tree whose names hold no separator, so are the
  names on the way and the file names listed. *)
Lemma walk_visits exclude t :
  ∀ prefix root dirs files,
    (root, dirs, files) ∈ walk exclude prefix t →
    ∃ comps,
      root = prefix ++ comps ∧
      Forall (fun d => d ∉ exclude) comps ∧
      Forall (fun d => d ∉ exclude) dirs ∧
      (names_ok t = true →
       Forall (fun d => slash_free d = true) comps ∧
       Forall (fun e => slash_free (fst e) = true) files).
Proof.
  induction t as [files0 dirs0 IH] using tree_nested_ind.
  intros prefix root dirs files. simpl. rewrite elem_of_cons. intros [Heq|Hin].
  - simplify_eq. exists []. rewrite app_nil_r. split_and!; try done.
    + apply Forall_forall. by intros d [? _]%list_elem_of_filter.
    + intros [Hfiles _]%andb_prop. split; [done|].
      apply Forall_forall. intros e He. rewrite forallb_forall in Hfiles.
      by apply Hfiles, list_elem_of_In.
  - assert (∃ d sub, (d, sub) ∈ dirs0 ∧ (d ∉ exclude) ∧
                     (root, dirs, files) ∈ walk exclude (prefix ++ [d]) sub)
      as (d & sub & Hd & Hex & Hsub).
    { clear IH. induction dirs0 as [|[d sub] ds IHds]; [by apply elem_of_nil in Hin|].
      case_decide as Hdec.
      - destruct (IHds Hin) as (d' & sub' & ? & ? & ?). exists d', sub'.
        split; [by right|done].
      - apply elem_of_app in Hin as [Hin|Hin].
        + exists d, sub. split; [by left|done].
        + destruct (IHds Hin) as (d' & sub' & ? & ? & ?). exists d', sub'.
          split; [by right|done]. }
    rewrite Forall_forall in IH.
    destruct (IH (d, sub) Hd _ _ _ _ Hsub) as (comps & -> & Hcomps & Hdirs & Hnames).
    exists (d :: comps). rewrite <- app_assoc. split_and!; try done.
    + by constructor.
    + intros [_ Hall]%andb_prop.
      assert (slash_free d = true ∧ names_ok sub = true) as [Hdfree Hsubok].
      { clear -Hd Hall. induction dirs0 as [|[d0 sub0] ds IHds];
          [by apply elem_of_nil in Hd|].
        apply andb_prop in Hall as [[? ?]%andb_prop Hrest].
        apply elem_of_cons in Hd as [?|?]; [by simplify_eq|by apply IHds]. }
      destruct (Hnames Hsubok) as [? ?]. split; [by constructor|done].
Qed.

Lemma split_slash_free (s : string) : slash_free s = true → split_slash s = [s].
Proof.
  induction s as [|c s IH]; simpl; [done|].
  intros [Hc Hs]%andb_prop. apply negb_true_iff in Hc. by rewrite Hc, IH.
Qed.

Lemma split_slash_app (s rest : string) :
  slash_free s = true →
  split_slash (s +:+ "/" +:+ rest) = s :: split_slash rest.
Proof.
  induction s as [|c s IH]; simpl; [done|].
  intros [Hc Hs]%andb_prop. apply negb_true_iff in Hc.
  rewrite Hc. change (String.append s (String "/" rest)) with (s +:+ "/" +:+ rest).
  by rewrite IH.
Qed.

Lemma split_slash_concat (l : list string) :
  l ≠ [] →
  Forall (fun s => slash_free s = true) l →
  split_slash (String.concat "/" l) = l.
Proof.
  intros Hne Hall. induction Hall as [|s l Hs Hl IH]; [done|].
  destruct l as [|s' l].
  - simpl. by apply split_slash_free.
  - change (String.concat "/" (s :: s' :: l))
      with (s +:+ "/" +:+ String.concat "/" (s' :: l)).
    rewrite split_slash_app by done. f_equal. by apply IH.
Qed.

Lemma dir_components_relpath (root : list string) (file : string) :
  Forall (fun s => slash_free s = true) root →
  slash_free file = true →
  dir_components (relpath root file) = root.
Proof.
  intros Hroot Hfile. unfold dir_components, relpath.
  rewrite split_slash_concat.
  - apply removelast_last.
  - by destruct root.
  - apply Forall_app. split; [done|by apply Forall_singleton].
Qed.

(** C6. Exclusion soundness: the walk of a run only yields directories that
  are reached through names outside the exclusion set and only proposes
  such names for descent; every record of the manifest is the record of
  a file listed in a directory so reached; and, names holding no
  separator, no directory name on a recorded relative path is excluded. *)
Theorem C6_exclusion_soundness h source_dir target_dir description tags
    exclude_folders env_info_name w out w' :
  copy_code_files h source_dir target_dir description tags exclude_folders
                  env_info_name w = (Ok out, w') →
  (∀ root dirs files,
     (root, dirs, files)
       ∈ walk (list_to_set (default [] exclude_folders)) [] source_dir →
     ∀ d, d ∈ root ++ dirs → d ∉ default [] exclude_folders) ∧
  (∀ r, r ∈ bi_files (br_info out) →
     ∃ root dirs files file f,
       (root, dirs, files)
         ∈ walk (list_to_set (default [] exclude_folders)) [] source_dir ∧
       (file, f) ∈ files ∧
       fi_path r = relpath root file ∧
       ∀ d, d ∈ root → d ∉ default [] exclude_folders) ∧
  (names_ok source_dir = true →
   ∀ r, r ∈ bi_files (br_info out) →
     ∀ d, d ∈ dir_components (fi_path r) → d ∉ default [] exclude_folders).
Proof.
  intros Hrun.
  apply copy_code_files_inv in Hrun as (d0 & last & _ & Hrec & _).
  rewrite Forall_forall in Hrec.
  assert (∀ root dirs files,
            (root, dirs, files)
              ∈ walk (list_to_set (default [] exclude_folders)) [] source_dir →
            (∀ d, d ∈ root ++ dirs → d ∉ default [] exclude_folders) ∧
            (names_ok source_dir = true →
             Forall (fun d => slash_free d = true) root ∧
             Forall (fun e => slash_free (fst e) = true) files)) as Hwalk.
  { intros root dirs files Hin.
    apply walk_visits in Hin as (comps & -> & Hcomps & Hdirs & Hnames).
    split; [|done]. simpl. intros d Hd.
    assert (d ∉ (list_to_set (default [] exclude_folders) : gset string)) as Hout.
    { apply elem_of_app in Hd as [Hd|Hd].
      - by apply (proj1 (Forall_forall _ _) Hcomps).
      - by apply (proj1 (Forall_forall _ _) Hdirs). }
    by rewrite elem_of_list_to_set in Hout. }
  split_and!.
  - intros root dirs files Hin. by destruct (Hwalk _ _ _ Hin).
  - intros r Hr.
    destruct (Hrec r Hr) as ((root & dirs & files & file & f & Hin & Hf & Hpath & _) & _).
    exists root, dirs, files, file, f. split_and!; try done.
    intros d Hd. destruct (Hwalk _ _ _ Hin) as [Hex _]. apply Hex.
    apply elem_of_app. by left.
  - intros Hok r Hr d.
    destruct (Hrec r Hr) as ((root & dirs & files & file & f & Hin & Hf & Hpath & _) & _).
    destruct (Hwalk _ _ _ Hin) as [Hex Hfree]. destruct (Hfree Hok) as [Hroot Hfiles].
    rewrite Hpath, dir_components_relpath.
    + intros Hd. apply Hex, elem_of_app. by left.
    + done.
    + by apply (proj1 (Forall_forall _ _) Hfiles (file, f)).
Qed.

Lemma C6_exclusion_soundness_witness :
  copy_code_files Samples.first_time (Samples.project "H1") [] "nightly" None
                  Samples.excluded None Samples.quiet
    = (Ok Samples.first_out, Samples.first_world) ∧
  names_ok (Samples.project "H1") = true ∧
  fi_path <$> bi_files (br_info Samples.first_out) = ["a.py"; "docs/README.MD"] ∧
  ∀ r, r ∈ bi_files (br_info Samples.first_out) →
    ∀ d, d ∈ dir_components (fi_path r) → d ∉ default [] Samples.excluded.
Proof.
  split; [vm_compute; reflexivity|]. split; [reflexivity|]. split; [reflexivity|].
  apply (C6_exclusion_soundness Samples.first_time (Samples.project "H1") []
           "nightly" None Samples.excluded None Samples.quiet Samples.first_out
           Samples.first_world); [vm_compute; reflexivity|reflexivity].
Defined.

(** ** The caller's environment names *)

(** C10. The caller's [env_info_name] has no effect: two runs that differ
  only in that argument give the same result and leave the same world,
  and the packages and requirements files of a completed run are those
  selected by the names written in the engine. *)
Theorem C10_env_info_name_has_no_effect h source_dir target_dir description tags
    exclude_folders (env1 env2 : option (list string)) w :
  copy_code_files h source_dir target_dir description tags exclude_folders env1 w
    = copy_code_files h source_dir target_dir description tags exclude_folders env2 w ∧
  ∀ out w',
    copy_code_files h source_dir target_dir description tags exclude_folders env1 w
      = (Ok out, w') →
    bi_packages (br_info out)
      = get_installed_packages (working_set h) (Some (hard_coded_env_names h)) ∧
    br_requirements out
      = write_requirements (bi_packages (br_info out)) (Some (hard_coded_env_names h)).
Proof.
  split; [reflexivity|].
  intros out w' Hrun.
  by apply copy_code_files_inv in Hrun as (_ & _ & _ & _ & _ & _ & ? & ?).
Qed.

Lemma C10_env_info_name_has_no_effect_witness :
  copy_code_files Samples.first_time (Samples.project "H1") [] "nightly" None
                  Samples.excluded (Some ["base"]) Samples.quiet
    = (Ok Samples.first_out, Samples.first_world) ∧
  copy_code_files Samples.first_time (Samples.project "H1") [] "nightly" None
                  Samples.excluded (Some ["base"]) Samples.quiet
    = copy_code_files Samples.first_time (Samples.project "H1") [] "nightly" None
                      Samples.excluded None Samples.quiet ∧
  p_name <$> bi_packages (br_info Samples.first_out) = ["numpy"; "mmcv"] ∧
  br_requirements Samples.first_out
    = write_requirements (bi_packages (br_info Samples.first_out))
                         (Some (hard_coded_env_names Samples.first_time)).
Proof.
  destruct (C10_env_info_name_has_no_effect Samples.first_time (Samples.project "H1") []
              "nightly" None Samples.excluded (Some ["base"]) None Samples.quiet)
    as [Hsame Hpackages].
  split; [vm_compute; reflexivity|]. split; [exact Hsame|]. split; [reflexivity|].
  apply (Hpackages Samples.first_out Samples.first_world). vm_compute. reflexivity.
Defined.

(** ** Retention *)

Lemma insert_by_perm {A} (le : A → A → bool) (x : A) (l : list A) :
  Py.insert_by le x l ≡ₚ x :: l.
Proof.
  induction l as [|y l IH]; simpl; [done|].
  destruct (le x y); [done|]. rewrite IH. apply Permutation_swap.
Qed.

Lemma sort_by_perm {A} (le : A → A → bool) (l : list A) : Py.sort_by le l ≡ₚ l.
Proof.
  induction l as [|x l IH]; simpl; [done|].
  fold (Py.sort_by le l). by rewrite insert_by_perm, IH.
Qed.

Lemma insert_newest_first (x : entry) (l : list entry) :
  StronglySorted newer_first l →
  StronglySorted newer_first
    (Py.insert_by (fun a b => (e_mtime b <=? e_mtime a)%Z) x l).
Proof.
  induction 1 as [|y l Hl IH Hy]; simpl; [by repeat constructor|].
  destruct (Z.leb_spec (e_mtime y) (e_mtime x)) as [Hle|Hlt].
  - constructor; [by constructor|].
    constructor; [done|]. eapply Forall_impl; [exact Hy|].
    unfold newer_first. intros z ?. lia.
  - constructor; [done|].
    rewrite insert_by_perm. constructor; [|done]. unfold newer_first. lia.
Qed.

Lemma sort_newest_first (l : list entry) :
  StronglySorted newer_first
    (Py.sort_by (fun a b => (e_mtime b <=? e_mtime a)%Z) l).
Proof.
  induction l as [|x l IH]; simpl; [constructor|]. by apply insert_newest_first.
Qed.

Lemma slice_from_count {A} (n : nat) (l : list A) :
  Py.slice_from (Z.of_nat n) l = drop n l.
Proof.
  unfold Py.slice_from. destruct (Z.ltb_spec (Z.of_nat n) 0); [lia|].
  by rewrite Nat2Z.id.
Qed.

Lemma names_determine (l : list entry) (a b : entry) :
  NoDup (e_name <$> l) → a ∈ l → b ∈ l → e_name a = e_name b → a = b.
Proof.
  induction l as [|x l IH]; simpl; [by intros _ ?%elem_of_nil|].
  intros [Hx Hl]%NoDup_cons Ha Hb Hname.
  apply elem_of_cons in Ha as [->|Ha]; apply elem_of_cons in Hb as [->|Hb].
  - done.
  - destruct Hx. rewrite Hname. by apply list_elem_of_fmap_2.
  - destruct Hx. rewrite <- Hname. by apply list_elem_of_fmap_2.
  - by apply IH.
Qed.

Lemma elem_of_List_filter {A} (f : A → bool) (l : list A) (x : A) :
  x ∈ List.filter f l ↔ x ∈ l ∧ f x = true.
Proof. rewrite !list_elem_of_In. apply List.filter_In. Qed.

Lemma NoDup_List_filter {A} (f : A → bool) (l : list A) :
  NoDup l → NoDup (List.filter f l).
Proof.
  induction 1 as [|x l Hx Hl IH]; simpl; [constructor|].
  destruct (f x); [|done]. constructor; [|done].
  rewrite elem_of_List_filter. tauto.
Qed.

Lemma List_filter_all {A} (f : A → bool) (l : list A) :
  (∀ x, x ∈ l → f x = true) → List.filter f l = l.
Proof.
  induction l as [|x l IH]; intros Hall; simpl; [done|].
  rewrite Hall by left. f_equal. apply IH. intros y ?. apply Hall. by right.
Qed.

(** C8. Retention: with [M] backup entries (directories and zip files)
  under the destination root and a keep-count [N], the entries deleted
  are [M - N] backup entries, none newer than any of the [N] (or [M], if
  fewer) that are kept; what is left of the listing is exactly what was
  not deleted, the kept entries included; for [M <= N] nothing is deleted. *)
Theorem C8_retention (target_dir : list entry) (N : nat) :
  NoDup (e_name <$> target_dir) →
  ∃ kept,
    kept ++ fst (cleanup_old_backups target_dir (Z.of_nat N))
      ≡ₚ List.filter is_backup target_dir ∧
    length (fst (cleanup_old_backups target_dir (Z.of_nat N)))
      = length (List.filter is_backup target_dir) - N ∧
    length kept = N `min` length (List.filter is_backup target_dir) ∧
    none_newer kept (fst (cleanup_old_backups target_dir (Z.of_nat N))) ∧
    (∀ e, e ∈ snd (cleanup_old_backups target_dir (Z.of_nat N)) ↔
          e ∈ target_dir ∧ e ∉ fst (cleanup_old_backups target_dir (Z.of_nat N))) ∧
    (∀ k, k ∈ kept → k ∈ snd (cleanup_old_backups target_dir (Z.of_nat N))) ∧
    (length (List.filter is_backup target_dir) ≤ N →
     cleanup_old_backups target_dir (Z.of_nat N) = ([], target_dir)).
Proof.
  intros Hnames. unfold cleanup_old_backups. simpl. rewrite slice_from_count.
  set (backups := List.filter is_backup target_dir).
  set (sorted := Py.sort_by (fun a b => (e_mtime b <=? e_mtime a)%Z) backups).
  assert (sorted ≡ₚ backups) as Hperm by apply sort_by_perm.
  assert (StronglySorted newer_first sorted) as Hsorted by apply sort_newest_first.
  assert (∀ e, e ∈ sorted → e ∈ target_dir) as Hsub.
  { intros e. rewrite Hperm. unfold backups. rewrite elem_of_List_filter. tauto. }
  assert (NoDup sorted) as Hnodup.
  { rewrite Hperm. unfold backups. apply NoDup_List_filter. by eapply NoDup_fmap_1. }
  rewrite <- (take_drop N sorted) in Hsorted, Hnodup.
  apply StronglySorted_app in Hsorted as (Hcross & _ & _).
  apply NoDup_app in Hnodup as (_ & Hdisjoint & _).
  assert (∀ e, e ∈ target_dir →
            e_name e ∈ e_name <$> drop N sorted ↔ e ∈ drop N sorted) as Hbyname.
  { intros e He. split; [|apply list_elem_of_fmap_2].
    intros (d & Hname & Hd)%list_elem_of_fmap.
    rewrite (names_determine target_dir e d); try done.
    apply Hsub. by apply (subseteq_drop N sorted). }
  assert (∀ e, e ∈ List.filter
                     (fun item => negb (bool_decide (e_name item ∈ e_name <$> drop N sorted)))
                     target_dir ↔ e ∈ target_dir ∧ e ∉ drop N sorted) as Hleft.
  { intros e. rewrite elem_of_List_filter, negb_true_iff, bool_decide_eq_false.
    split; intros [He Hout]; (split; [done|]); by rewrite <- Hbyname in *. }
  exists (take N sorted). split_and!.
  - by rewrite take_drop.
  - rewrite length_drop. by rewrite Hperm.
  - rewrite length_take. by rewrite Hperm.
  - intros k d Hk Hd. by apply Hcross.
  - done.
  - intros k Hk. apply Hleft. split; [|by apply Hdisjoint].
    apply Hsub. by apply (subseteq_take N sorted).
  - intros Hfew. rewrite drop_ge by (rewrite Hperm; done). f_equal.
    apply List_filter_all. intros e _. apply negb_true_iff, bool_decide_eq_false.
    simpl. apply not_elem_of_nil.
Qed.

Lemma C8_retention_witness :
  NoDup (e_name <$> Samples.shelf) ∧
  length (List.filter is_backup Samples.shelf) = 3 ∧
  e_name <$> fst (cleanup_old_backups Samples.shelf 2) = ["20240101_120000"] ∧
  e_name <$> snd (cleanup_old_backups Samples.shelf 2)
    = ["20240102_120000.zip"; "notes.txt"; "20240103_120000"] ∧
  ∃ kept,
    kept ++ fst (cleanup_old_backups Samples.shelf (Z.of_nat 2))
      ≡ₚ List.filter is_backup Samples.shelf ∧
    length (fst (cleanup_old_backups Samples.shelf (Z.of_nat 2)))
      = length (List.filter is_backup Samples.shelf) - 2 ∧
    length kept = 2 `min` length (List.filter is_backup Samples.shelf) ∧
    none_newer kept (fst (cleanup_old_backups Samples.shelf (Z.of_nat 2))).
Proof.
  assert (NoDup (e_name <$> Samples.shelf)) as Hnames.
  { apply (bool_decide_unpack _). vm_compute. exact I. }
  split; [exact Hnames|]. split; [reflexivity|]. split; [reflexivity|].
  split; [reflexivity|].
  destruct (C8_retention Samples.shelf 2 Hnames)
    as (kept & Hperm & Hdel & Hkept & Hold & _).
  exists kept. by split_and!.
Defined.

(** ** The restorer *)







(** ** What a completed run has done *)

Import Run.

Lemma backup_file_trace backup_dir target_dir last root acc entry w acc' w' :
  backup_file backup_dir target_dir last root acc entry w = (Ok acc', w') →
  if recognized (fst entry) then
    readable (root, entry) ∧
    pr_files acc' = pr_files acc ++ [record_of last (root, entry)] ∧
    head (copy_script w) ≠ Some false ∧
    copy_script w' = tail (copy_script w) ∧
    copied w' = copied w ++ [copy_of backup_dir (root, entry)] ∧
    slept w' = slept w
  else acc' = acc ∧ w' = w.
Proof.
  unfold backup_file, recognized.
  case_bool_decide as Hext.
  - rewrite decide_True by done.
    unfold bind, calculate_file_hash, writable_below, shutil_copy2, lift, ret, raise,
      readable, record_of, copy_of. simpl.
    destruct (f_digest entry.2) as [digest|] eqn:Hdig; [|done].
    destruct (lookup_node backup_dir target_dir) as [[|m]|]; [done| |done].
    destruct (pr_statistics acc !! _) as [count|];
      destruct w as [[|[] script] made naps]; simpl; intros ?; simplify_eq; simpl;
      by split_and!.
  - rewrite decide_False by done. unfold ret. intros ?; by simplify_eq.
Qed.

Lemma traced_nil backup_dir last acc w : traced backup_dir last [] acc acc w w.
Proof.
  unfold traced. simpl. rewrite !app_nil_r, drop_0.
  split_and!; try done. apply not_elem_of_nil.
Qed.

Lemma traced_app backup_dir last cs1 cs2 acc acc1 acc2 w w1 w2 :
  traced backup_dir last cs1 acc acc1 w w1 →
  traced backup_dir last cs2 acc1 acc2 w1 w2 →
  traced backup_dir last (cs1 ++ cs2) acc acc2 w w2.
Proof.
  intros (Hr1 & Hf1 & Hs1 & Hd1 & Hc1 & Hn1) (Hr2 & Hf2 & Hs2 & Hd2 & Hc2 & Hn2).
  unfold traced. rewrite length_app, !fmap_app.
  split_and!.
  - by apply Forall_app.
  - by rewrite Hf2, Hf1, <- app_assoc.
  - rewrite <- take_take_drop. intros [?|Hin]%elem_of_app; [done|].
    by rewrite Hd1 in Hs2.
  - by rewrite Hd2, Hd1, drop_drop.
  - by rewrite Hc2, Hc1, <- app_assoc.
  - by rewrite Hn2.
Qed.

Lemma foldM_traced {A} backup_dir last (f : progress → A → M progress)
    (g : A → list (list string * (string * file))) (l : list A) :
  (∀ acc x w acc' w', x ∈ l → f acc x w = (Ok acc', w') →
     traced backup_dir last (g x) acc acc' w w') →
  ∀ acc w acc' w',
    foldM f acc l w = (Ok acc', w') →
    traced backup_dir last (flat_map g l) acc acc' w w'.
Proof.
  induction l as [|x l IH]; intros Hstep acc w acc' w' Hrun; simpl in *.
  - unfold ret in Hrun. simplify_eq. apply traced_nil.
  - unfold bind in Hrun. destruct (f acc x w) as [[acc1|e] w1] eqn:Hf; [|done].
    eapply traced_app.
    + eapply Hstep; [by left|done].
    + eapply IH; [|done]. intros ? y ? ? ? Hy. apply Hstep. by right.
Qed.

Lemma candidates_of_dir (root : list string) (files : list (string * file)) :
  flat_map (fun entry => if recognized (fst entry) then [(root, entry)] else []) files
  = (fun entry => (root, entry)) <$> List.filter (fun entry => recognized (fst entry)) files.
Proof.
  induction files as [|entry files IH]; simpl; [done|].
  destruct (recognized (fst entry)); simpl; by rewrite IH.
Qed.

Lemma walk_loop_traced backup_dir target_dir last exclude source_dir acc w acc' w' :
  foldM (fun acc '(root, _, files) =>
           foldM (backup_file backup_dir target_dir last root) acc files)
        acc (walk exclude [] source_dir) w = (Ok acc', w') →
  traced backup_dir last (candidates exclude source_dir) acc acc' w w'.
Proof.
  unfold candidates. apply foldM_traced.
  intros acc0 [[root dirs] files] w0 acc0' w0' _ Hdir.
  rewrite <- candidates_of_dir. revert Hdir. apply foldM_traced.
  intros acc1 entry w1 acc1' w1' _ Hfile.
  apply backup_file_trace in Hfile. unfold traced.
  destruct (recognized (fst entry)).
  - destruct Hfile as (? & ? & Hhead & Htail & ? & ?). simpl.
    split_and!; try done; try (by apply Forall_singleton).
    destruct (copy_script w1) as [|[] ?]; simpl in *; try done.
    + apply not_elem_of_nil.
    + rewrite take_0. by intros [?|?%elem_of_nil]%elem_of_cons.
  - destruct Hfile as [-> ->]. apply traced_nil.
Qed.

Lemma copy_code_files_trace h source_dir target_dir description tags exclude_folders
    env_info_name w out w' :
  copy_code_files h source_dir target_dir description tags exclude_folders
                  env_info_name w = (Ok out, w') →
  ∃ last_backup_dir last_backup_hash m,
    find_last_backup (ensure_backup_dir (now_stamp h) target_dir)
      = Ok (last_backup_dir, last_backup_hash) ∧
    lookup_node (now_stamp h) (ensure_backup_dir (now_stamp h) target_dir)
      = Some (Directory m) ∧
    traced (now_stamp h) last_backup_hash
           (candidates (list_to_set (default [] exclude_folders)) source_dir)
           {| pr_files := []; pr_statistics := gset_to_gmap 0 CODE_FILE_TYPES |}
           {| pr_files := bi_files (br_info out);
              pr_statistics := bi_statistics (br_info out) |} w w' ∧
    br_backup_dir out = now_stamp h ∧
    br_summary out = generate_backup_summary (br_info out) (br_changes out) ∧
    br_target_dir out
      = write_manifest (now_stamp h) (br_info out)
                       (ensure_backup_dir (now_stamp h) target_dir).
Proof.
  unfold copy_code_files, bind, lift.
  destruct (find_last_backup _) as [[last_dir last_hash]|e] eqn:Hfind; [|done].
  destruct (foldM _ _ _ w) as [[final|e] w1] eqn:Hloop; [|done].
  unfold writable_below, ret, raise.
  destruct (lookup_node _ _) as [[|m]|] eqn:Hnode; [done| |done].
  intros Hrun. simplify_eq. simpl.
  exists last_dir, last_hash, m. split_and!; try done.
  apply walk_loop_traced in Hloop. by destruct final.
Qed.

Lemma sum_sizes_records last (cs : list (list string * (string * file))) :
  foldr (fun file total => fi_size file + total) 0 (record_of last <$> cs)
  = foldr (fun c total => f_size (snd (snd c)) + total) 0 cs.
Proof. induction cs as [|c cs IH]; simpl; [done|]. f_equal. apply IH. Qed.

Lemma total_size_dir (root : list string) (files : list (string * file)) (base : nat) :
  foldl (fun total_size '(file, f) =>
           if decide (Py.lower (Py.splitext file).2 ∈ CODE_FILE_TYPES)
           then total_size + f_size f
           else total_size) base files
  = base + foldr (fun c total => f_size (snd (snd c)) + total) 0
             ((fun entry => (root, entry))
                <$> List.filter (fun entry => recognized (fst entry)) files).
Proof.
  revert base. induction files as [|[file f] files IH]; intros base; simpl; [lia|].
  rewrite IH. destruct (decide (Py.lower (Py.splitext file).2 ∈ CODE_FILE_TYPES)).
  - replace (recognized file) with true
      by (symmetry; by apply bool_decide_eq_true_2).
    simpl. rewrite Nat.add_assoc. reflexivity.
  - replace (recognized file) with false
      by (symmetry; by apply bool_decide_eq_false_2).
    done.
Qed.

Lemma sum_sizes_app (cs1 cs2 : list (list string * (string * file))) :
  foldr (fun c total => f_size (snd (snd c)) + total) 0 (cs1 ++ cs2)
  = foldr (fun c total => f_size (snd (snd c)) + total) 0 cs1
    + foldr (fun c total => f_size (snd (snd c)) + total) 0 cs2.
Proof. induction cs1 as [|c cs1 IH]; simpl; [done|]. rewrite IH. lia. Qed.

Lemma total_size_triples
    (triples : list (list string * list string * list (string * file))) (base : nat) :
  foldl (fun total_size '(_, _, files) =>
           foldl (fun total_size '(file, f) =>
                    if decide (Py.lower (Py.splitext file).2 ∈ CODE_FILE_TYPES)
                    then total_size + f_size f
                    else total_size)
                 total_size files) base triples
  = base + foldr (fun c total => f_size (snd (snd c)) + total) 0
             (flat_map (fun '(root, _, files) =>
                          (fun entry => (root, entry))
                            <$> List.filter (fun entry => recognized (fst entry)) files)
                       triples).
Proof.
  revert base. induction triples as [|[[root dirs] files] triples IH]; intros base.
  - simpl. lia.
  - cbn [foldl flat_map]. rewrite IH, (total_size_dir root), sum_sizes_app. lia.
Qed.

Lemma get_total_size_candidates (source_dir : tree) (exclude_folders : gset string) :
  get_total_size source_dir CODE_FILE_TYPES exclude_folders
  = foldr (fun c total => f_size (snd (snd c)) + total) 0
          (candidates exclude_folders source_dir).
Proof. unfold get_total_size, candidates. by rewrite total_size_triples. Qed.

Lemma elem_of_candidates exclude source_dir root dirs files file f :
  (root, dirs, files) ∈ walk exclude [] source_dir →
  (file, f) ∈ files →
  recognized file = true →
  (root, (file, f)) ∈ candidates exclude source_dir.
Proof.
  intros Hwalk Hfile Hrec. unfold candidates.
  apply list_elem_of_In, in_flat_map. exists (root, dirs, files).
  split; [by apply list_elem_of_In|].
  apply list_elem_of_In, list_elem_of_fmap. exists (file, f). split; [done|].
  by apply elem_of_List_filter.
Qed.

(** X1. A completed run has a record for every file of a recognized type
  that the pruned walk lists, with that file's path, digest, size and
  modification time; the records stand in the order of the walk. *)
Theorem X1_run_records_every_candidate h source_dir target_dir description tags
    exclude_folders env_info_name w out w' :
  copy_code_files h source_dir target_dir description tags exclude_folders
                  env_info_name w = (Ok out, w') →
  fi_path <$> bi_files (br_info out)
    = (fun c => relpath (fst c) (fst (snd c)))
        <$> candidates (list_to_set (default [] exclude_folders)) source_dir ∧
  ∀ root dirs files file f,
    (root, dirs, files)
      ∈ walk (list_to_set (default [] exclude_folders)) [] source_dir →
    (file, f) ∈ files →
    recognized file = true →
    ∃ r, r ∈ bi_files (br_info out) ∧
         fi_path r = relpath root file ∧
         f_digest f = Some (fi_hash r) ∧
         fi_size r = f_size f ∧
         fi_modified r = f_modified f.
Proof.
  intros Hrun.
  apply copy_code_files_trace in Hrun
    as (d & last & m & _ & _ & (Hread & Hfiles & _) & _).
  simpl in Hfiles. rewrite Hfiles. split.
  - rewrite <- list_fmap_compose. done.
  - intros root dirs files file f Hwalk Hfile Hrec.
    pose proof (elem_of_candidates _ _ _ _ _ _ _ Hwalk Hfile Hrec) as Hc.
    exists (record_of last (root, (file, f))). split.
    + apply list_elem_of_fmap. by eexists.
    + rewrite Forall_forall in Hread. destruct (Hread _ Hc) as [digest Hdig].
      simpl in Hdig. unfold record_of. simpl. by rewrite Hdig.
Qed.

Lemma X1_run_records_every_candidate_witness :
  copy_code_files Samples.first_time (Samples.project "H1") [] "nightly" None
                  Samples.excluded None Samples.quiet
    = (Ok Samples.first_out, Samples.first_world) ∧
  fi_path <$> bi_files (br_info Samples.first_out) = ["a.py"; "docs/README.MD"] ∧
  fi_path <$> bi_files (br_info Samples.first_out)
    = (fun c => relpath (fst c) (fst (snd c)))
        <$> candidates (list_to_set (default [] Samples.excluded)) (Samples.project "H1").
Proof.
  split; [vm_compute; reflexivity|]. split; [reflexivity|].
  apply (X1_run_records_every_candidate Samples.first_time (Samples.project "H1") []
           "nightly" None Samples.excluded None Samples.quiet Samples.first_out
           Samples.first_world).
  vm_compute. reflexivity.
Defined.

(** X2. A completed run has copied exactly the files it recorded, once
  each and in the order of the manifest, into the mirrored path under its
  backup directory, and has never slept. *)
Theorem X2_run_copies_what_it_records h source_dir target_dir description tags
    exclude_folders env_info_name w out w' :
  copy_code_files h source_dir target_dir description tags exclude_folders
                  env_info_name w = (Ok out, w') →
  copied w'
    = copied w ++ (copy_of (br_backup_dir out)
                     <$> candidates (list_to_set (default [] exclude_folders)) source_dir) ∧
  fst <$> drop (length (copied w)) (copied w') = fi_path <$> bi_files (br_info out) ∧
  slept w' = slept w.
Proof.
  intros Hrun.
  apply copy_code_files_trace in Hrun
    as (d & last & m & _ & _ & (_ & Hfiles & _ & _ & Hcopied & Hslept) & -> & _).
  simpl in Hfiles. split_and!; try done.
  rewrite Hcopied, drop_app_length, Hfiles, <- !list_fmap_compose. done.
Qed.

Lemma X2_run_copies_what_it_records_witness :
  copy_code_files Samples.first_time (Samples.project "H1") [] "nightly" None
                  Samples.excluded None Samples.quiet
    = (Ok Samples.first_out, Samples.first_world) ∧
  copied Samples.first_world
    = [("a.py", "20240101_120000/./a.py");
       ("docs/README.MD", "20240101_120000/docs/README.MD")] ∧
  fst <$> drop (length (copied Samples.quiet)) (copied Samples.first_world)
    = fi_path <$> bi_files (br_info Samples.first_out).
Proof.
  split; [vm_compute; reflexivity|]. split; [reflexivity|].
  apply (X2_run_copies_what_it_records Samples.first_time (Samples.project "H1") []
           "nightly" None Samples.excluded None Samples.quiet Samples.first_out
           Samples.first_world).
  vm_compute. reflexivity.
Defined.

Lemma sum_sizes_submseteq (cs1 cs2 : list (list string * (string * file))) :
  cs1 ⊆+ cs2 →
  foldr (fun c total => f_size (snd (snd c)) + total) 0 cs1
  ≤ foldr (fun c total => f_size (snd (snd c)) + total) 0 cs2.
Proof.
  induction 1 as [|c l1 l2 _ IH|c1 c2 l|c l1 l2 _ IH|l1 l2 l3 _ IH1 _ IH2]; simpl; lia.
Qed.

(** X3. [get_total_size] walks the source before the loop does; [sized]
  is the tree as it finds it.  If its walk lists the candidates the
  loop's walk lists, the total it announces to the progress bar is the
  total size the summary of the completed run reports; if the loop's
  walk lists those and more (files that appeared in between, such as the
  run's own copies when the destination lies inside the source), the
  total announced is at most the total reported.  The number of files
  reported is the number of candidates of the loop. *)
Theorem X3_announced_total_is_backed_up_total h source_dir target_dir description
    tags exclude_folders env_info_name w out w' (sized : tree) :
  copy_code_files h source_dir target_dir description tags exclude_folders
                  env_info_name w = (Ok out, w') →
  let exclude : gset string := list_to_set (default [] exclude_folders) in
  (candidates exclude sized = candidates exclude source_dir →
   get_total_size sized CODE_FILE_TYPES exclude = bs_total_size (br_summary out)) ∧
  (candidates exclude sized ⊆+ candidates exclude source_dir →
   get_total_size sized CODE_FILE_TYPES exclude ≤ bs_total_size (br_summary out)) ∧
  bs_total_files (br_summary out) = length (candidates exclude source_dir).
Proof.
  intros Hrun exclude.
  apply copy_code_files_trace in Hrun
    as (d & last & m & _ & _ & (_ & Hfiles & _) & _ & -> & _).
  simpl in Hfiles. unfold generate_backup_summary. simpl. rewrite Hfiles.
  rewrite get_total_size_candidates, sum_sizes_records. split_and!.
  - by intros ->.
  - apply sum_sizes_submseteq.
  - by rewrite length_fmap.
Qed.

Lemma X3_announced_total_is_backed_up_total_witness :
  copy_code_files Samples.first_time (Samples.project "H1") [] "nightly" None
                  Samples.excluded None Samples.quiet
    = (Ok Samples.first_out, Samples.first_world) ∧
  bs_total_size (br_summary Samples.first_out) = 240 ∧
  get_total_size (Samples.project "H1") CODE_FILE_TYPES
                 (list_to_set (default [] Samples.excluded))
    = bs_total_size (br_summary Samples.first_out) ∧
  get_total_size MoreSamples.early_project CODE_FILE_TYPES
                 (list_to_set (default [] Samples.excluded)) = 120 ∧
  get_total_size MoreSamples.early_project CODE_FILE_TYPES
                 (list_to_set (default [] Samples.excluded))
    ≤ bs_total_size (br_summary Samples.first_out).
Proof.
  assert (copy_code_files Samples.first_time (Samples.project "H1") [] "nightly" None
                          Samples.excluded None Samples.quiet
          = (Ok Samples.first_out, Samples.first_world)) as Hrun
    by (vm_compute; reflexivity).
  split; [exact Hrun|]. split; [reflexivity|].
  destruct (X3_announced_total_is_backed_up_total _ _ _ _ _ _ _ _ _ _
              (Samples.project "H1") Hrun) as (Hsame & _ & _).
  split; [exact (Hsame eq_refl)|]. split; [vm_compute; reflexivity|].
  destruct (X3_announced_total_is_backed_up_total _ _ _ _ _ _ _ _ _ _
              MoreSamples.early_project Hrun) as (_ & Hless & _).
  apply Hless. vm_compute. apply submseteq_skip, submseteq_nil_l.
Defined.

(** ** When a run completes *)

Lemma ensure_backup_dir_lookup stamp (target_dir : list (string * node)) :
  (∃ m, lookup_node stamp (ensure_backup_dir stamp target_dir) = Some (Directory m)) ↔
  lookup_node stamp target_dir ≠ Some RegularFile.
Proof.
  unfold ensure_backup_dir.
  destruct (lookup_node stamp target_dir) as [[|m]|] eqn:Hlook.
  - rewrite Hlook. split; [by intros [? ?]|done].
  - rewrite Hlook. split; [done|by eexists].
  - rewrite lookup_node_snoc by done. split; [done|by eexists].
Qed.

Lemma completed_run_read_every_candidate h source_dir target_dir description tags
    exclude_folders env_info_name w out w' :
  copy_code_files h source_dir target_dir description tags exclude_folders
                  env_info_name w = (Ok out, w') →
  Forall readable (candidates (list_to_set (default [] exclude_folders)) source_dir).
Proof.
  intros Hrun. by apply copy_code_files_trace in Hrun as (_ & _ & _ & _ & _ & (? & _) & _).
Qed.

(** X4. A run completes only when the lookup of the previous backup
  raised nothing, the stamp is not the name of a regular file under the
  destination root, every candidate file could be read, and none of the
  copies, one per candidate, failed: a failure of any of these ends the
  run with its error. *)
Theorem X4_run_completes_only_when h source_dir target_dir description tags
    exclude_folders env_info_name w out w' :
  copy_code_files h source_dir target_dir description tags exclude_folders
                  env_info_name w = (Ok out, w') →
  (∃ found, find_last_backup (ensure_backup_dir (now_stamp h) target_dir) = Ok found) ∧
  lookup_node (now_stamp h) target_dir ≠ Some RegularFile ∧
  Forall readable (candidates (list_to_set (default [] exclude_folders)) source_dir) ∧
  (false ∉ take (length (candidates (list_to_set (default [] exclude_folders)) source_dir))
                (copy_script w)).
Proof.
  intros Hrun.
  apply copy_code_files_trace in Hrun
    as (d & last & m & Hfind & Hdir & (Hread & _ & Hscript & _) & _).
  split_and!; try done; [by eexists|].
  apply ensure_backup_dir_lookup. by eexists.
Qed.

Lemma X4_run_completes_only_when_witness :
  copy_code_files Samples.first_time (Samples.project "H1") [] "nightly" None
                  Samples.excluded None Samples.quiet
    = (Ok Samples.first_out, Samples.first_world) ∧
  lookup_node (now_stamp Samples.first_time) [] ≠ Some RegularFile ∧
  Forall readable
         (candidates (list_to_set (default [] Samples.excluded)) (Samples.project "H1")).
Proof.
  assert (copy_code_files Samples.first_time (Samples.project "H1") [] "nightly" None
                          Samples.excluded None Samples.quiet
          = (Ok Samples.first_out, Samples.first_world)) as Hrun
    by (vm_compute; reflexivity).
  split; [exact Hrun|].
  destruct (X4_run_completes_only_when _ _ _ _ _ _ _ _ _ _ Hrun)
    as (_ & Hdir & Hread & _).
  split; [exact Hdir|exact Hread].
Defined.

(** X5. A file of a recognized type that cannot be read stops the run: it
  returns an error, and so writes no manifest. *)
Theorem X5_unreadable_file_stops_the_run h source_dir target_dir description tags
    exclude_folders env_info_name w root dirs files file f :
  (root, dirs, files)
    ∈ walk (list_to_set (default [] exclude_folders)) [] source_dir →
  (file, f) ∈ files →
  recognized file = true →
  f_digest f = None →
  ∃ e w', copy_code_files h source_dir target_dir description tags exclude_folders
                          env_info_name w = (Err e, w').
Proof.
  intros Hwalk Hfile Hrec Hnone.
  destruct (copy_code_files h source_dir target_dir description tags exclude_folders
              env_info_name w) as [[out|e] w'] eqn:Hrun; [|by eexists _, _].
  apply completed_run_read_every_candidate in Hrun.
  pose proof (elem_of_candidates _ _ _ _ _ _ _ Hwalk Hfile Hrec) as Hc.
  rewrite Forall_forall in Hrun. destruct (Hrun _ Hc) as [digest Hdig].
  simpl in Hdig. congruence.
Qed.

Lemma X5_unreadable_file_stops_the_run_witness :
  f_digest MoreSamples.locked = None ∧
  recognized "secret.py" = true ∧
  ∃ e w', copy_code_files Samples.first_time MoreSamples.locked_project [] "nightly"
                          None Samples.excluded None Samples.quiet = (Err e, w').
Proof.
  split; [reflexivity|]. split; [vm_compute; reflexivity|].
  eapply (X5_unreadable_file_stops_the_run Samples.first_time MoreSamples.locked_project
            [] "nightly" None Samples.excluded None Samples.quiet [] _ _
            "secret.py" MoreSamples.locked).
  - unfold MoreSamples.locked_project. cbn [walk]. left.
  - right. left.
  - vm_compute. reflexivity.
  - reflexivity.
Defined.

(** ** The manifest a run leaves *)

Lemma lookup_node_write_manifest name backup_dir info (l : list (string * node)) :
  lookup_node name (write_manifest backup_dir info l)
  = if decide (name = backup_dir)
    then (fun _ => Directory (Manifest info)) <$> lookup_node name l
    else lookup_node name l.
Proof.
  unfold lookup_node, write_manifest.
  induction l as [|[n x] l IH]; simpl; [by case_decide|].
  destruct (String.eqb_spec n backup_dir) as [->|Hne]; simpl.
  - destruct (String.eqb_spec backup_dir name) as [->|Hne']; simpl.
    + by rewrite decide_True.
    + apply IH.
  - destruct (String.eqb_spec n name) as [->|Hne']; simpl.
    + by rewrite decide_False.
    + apply IH.
Qed.

Lemma lookup_node_ensure_other name backup_dir (l : list (string * node)) :
  name ≠ backup_dir →
  lookup_node name (ensure_backup_dir backup_dir l) = lookup_node name l.
Proof.
  intros Hne. unfold ensure_backup_dir. destruct (lookup_node backup_dir l); [done|].
  unfold lookup_node. induction l as [|[n x] l IH]; simpl.
  - destruct (String.eqb_spec backup_dir name); [congruence|done].
  - destruct (String.eqb n name); [done|apply IH].
Qed.

(** X6. A completed run leaves its manifest in the directory named by its
  stamp, replacing what that directory held, and leaves every other
  entry of the destination root as it was. *)
Theorem X6_run_writes_its_manifest h source_dir target_dir description tags
    exclude_folders env_info_name w out w' :
  copy_code_files h source_dir target_dir description tags exclude_folders
                  env_info_name w = (Ok out, w') →
  br_backup_dir out = now_stamp h ∧
  lookup_node (now_stamp h) (br_target_dir out)
    = Some (Directory (Manifest (br_info out))) ∧
  ∀ name, name ≠ now_stamp h →
    lookup_node name (br_target_dir out) = lookup_node name target_dir.
Proof.
  intros Hrun.
  apply copy_code_files_trace in Hrun as (d & last & m & _ & Hdir & _ & -> & _ & ->).
  split; [done|]. split.
  - by rewrite lookup_node_write_manifest, decide_True, Hdir.
  - intros name Hne.
    by rewrite lookup_node_write_manifest, decide_False, lookup_node_ensure_other.
Qed.

Lemma X6_run_writes_its_manifest_witness :
  copy_code_files Samples.second_time (Samples.project "H1")
                  (br_target_dir Samples.first_out) "nightly" None
                  Samples.excluded None Samples.first_world
    = (Ok Samples.second_out, Samples.second_world) ∧
  lookup_node "20240101_120005" (br_target_dir Samples.second_out)
    = Some (Directory (Manifest (br_info Samples.second_out))) ∧
  lookup_node "20240101_120000" (br_target_dir Samples.second_out)
    = Some (Directory (Manifest (br_info Samples.first_out))).
Proof.
  split; [vm_compute; reflexivity|].
  destruct (X6_run_writes_its_manifest Samples.second_time (Samples.project "H1")
              (br_target_dir Samples.first_out) "nightly" None Samples.excluded None
              Samples.first_world Samples.second_out Samples.second_world)
    as (_ & Hown & Hother); [vm_compute; reflexivity|].
  split; [exact Hown|].
  rewrite (Hother "20240101_120000"); [reflexivity|].
  intros H. discriminate H.
Defined.

(** ** The change report and the viewer *)

Lemma change_report_fold_any (files : list file_info) (acc : change_report) :
  let step changes file_info :=
    if fi_changed_since_last_backup file_info then
      if negb (existed file_info)
      then {| cr_new := cr_new changes ++ [fi_path file_info];
              cr_modified := cr_modified changes;
              cr_unchanged := cr_unchanged changes |}
      else {| cr_new := cr_new changes;
              cr_modified := cr_modified changes ++ [fi_path file_info];
              cr_unchanged := cr_unchanged changes |}
    else {| cr_new := cr_new changes;
            cr_modified := cr_modified changes;
            cr_unchanged := cr_unchanged changes ++ [fi_path file_info] |} in
  cr_new (foldl step acc files)
    = cr_new acc
      ++ (fi_path <$> List.filter
            (fun r => fi_changed_since_last_backup r && negb (existed r)) files) ∧
  cr_modified (foldl step acc files)
    = cr_modified acc
      ++ (fi_path <$> List.filter
            (fun r => fi_changed_since_last_backup r && existed r) files) ∧
  cr_unchanged (foldl step acc files)
    = cr_unchanged acc
      ++ (fi_path <$> List.filter (fun r => negb (fi_changed_since_last_backup r)) files).
Proof.
  intros step. revert acc.
  induction files as [|r files IH]; intros acc; simpl.
  - by rewrite !app_nil_r.
  - destruct (IH (step acc r)) as (-> & -> & ->). unfold step.
    destruct (fi_changed_since_last_backup r), (existed r); simpl;
      by rewrite <- ?app_assoc.
Qed.

Lemma three_way_count (files : list file_info) :
  length (List.filter (fun r => fi_changed_since_last_backup r && negb (existed r)) files)
  + length (List.filter (fun r => fi_changed_since_last_backup r && existed r) files)
  + length (List.filter (fun r => negb (fi_changed_since_last_backup r)) files)
  = length files.
Proof.
  induction files as [|r files IH]; simpl; [done|].
  destruct (fi_changed_since_last_backup r), (existed r); simpl; lia.
Qed.

Lemma change_report_new_modified (info : backup_info) :
  cr_new (generate_change_report info)
    = fi_path <$> List.filter
        (fun r => fi_changed_since_last_backup r && negb (existed r)) (bi_files info) ∧
  cr_modified (generate_change_report info)
    = fi_path <$> List.filter
        (fun r => fi_changed_since_last_backup r && existed r) (bi_files info).
Proof.
  unfold generate_change_report.
  by destruct (change_report_fold_any (bi_files info)
                 {| cr_new := []; cr_modified := []; cr_unchanged := [] |})
    as (-> & -> & _).
Qed.

(** X7. The change report sorts the paths of any manifest by two flags,
  keeping their order: changed without the ['existed_in_last_backup']
  flag is new, changed with it is modified, not changed is unchanged.
  Every file is in exactly one list, so the three counts of the summary
  add up to its number of files. *)
Theorem X7_change_report_classifies (info : backup_info) :
  cr_new (generate_change_report info)
    = fi_path <$> List.filter
        (fun r => fi_changed_since_last_backup r && negb (existed r)) (bi_files info) ∧
  cr_modified (generate_change_report info)
    = fi_path <$> List.filter
        (fun r => fi_changed_since_last_backup r && existed r) (bi_files info) ∧
  cr_unchanged (generate_change_report info)
    = fi_path <$> List.filter
        (fun r => negb (fi_changed_since_last_backup r)) (bi_files info) ∧
  bs_new_files (generate_backup_summary info (generate_change_report info))
  + bs_modified_files (generate_backup_summary info (generate_change_report info))
  + bs_unchanged_files (generate_backup_summary info (generate_change_report info))
  = bs_total_files (generate_backup_summary info (generate_change_report info)).
Proof.
  unfold generate_backup_summary, generate_change_report. simpl.
  destruct (change_report_fold_any (bi_files info)
              {| cr_new := []; cr_modified := []; cr_unchanged := [] |})
    as (-> & -> & ->).
  simpl. split_and!; try done.
  rewrite !length_fmap. apply three_way_count.
Qed.

Lemma shown_modified_count (files : list file_info) :
  foldr (fun f total => (if fi_changed_since_last_backup f then 1 else 0) + total) 0 files
  = length (List.filter (fun r => fi_changed_since_last_backup r && negb (existed r)) files)
    + length (List.filter (fun r => fi_changed_since_last_backup r && existed r) files).
Proof.
  induction files as [|r files IH]; simpl; [done|]. rewrite IH.
  destruct (fi_changed_since_last_backup r), (existed r); simpl; lia.
Qed.

(** X8. Viewing the directory a run has just written shows that run's
  manifest: the same number of files and total size as the run's own
  summary, and as modified files the sum of what the run's summary calls
  new and modified. *)
Theorem X8_viewer_agrees_with_summary h source_dir target_dir description tags
    exclude_folders env_info_name w out w' :
  copy_code_files h source_dir target_dir description tags exclude_folders
                  env_info_name w = (Ok out, w') →
  ViewBackup.load_backup_info (br_target_dir out) (br_backup_dir out)
    = Ok (Some (br_info out)) ∧
  ∃ s, ViewBackup.main (br_target_dir out) (br_backup_dir out) = Ok (Some s) ∧
       ViewBackup.sh_total_files s = bs_total_files (br_summary out) ∧
       ViewBackup.sh_total_size s = bs_total_size (br_summary out) ∧
       ViewBackup.sh_modified_files s
         = bs_new_files (br_summary out) + bs_modified_files (br_summary out).
Proof.
  intros Hrun.
  pose proof Hrun as Hinv.
  apply copy_code_files_inv in Hinv as (_ & _ & _ & _ & _ & Hchanges & _).
  apply copy_code_files_trace in Hrun as (d & last & m & _ & Hdir & _ & -> & -> & ->).
  assert (ViewBackup.load_backup_info
            (write_manifest (now_stamp h) (br_info out)
                            (ensure_backup_dir (now_stamp h) target_dir))
            (now_stamp h) = Ok (Some (br_info out))) as Hload.
  { unfold ViewBackup.load_backup_info.
    by rewrite lookup_node_write_manifest, decide_True, Hdir. }
  split; [done|]. unfold ViewBackup.main. rewrite Hload.
  eexists. split; [done|]. rewrite Hchanges.
  destruct (change_report_new_modified (br_info out)) as (Hnew & Hmod).
  unfold generate_backup_summary, ViewBackup.show_backup_summary. simpl.
  split_and!; try done.
  by rewrite Hnew, Hmod, !length_fmap, shown_modified_count.
Qed.

Lemma X8_viewer_agrees_with_summary_witness :
  copy_code_files Samples.first_time (Samples.project "H1") [] "nightly" None
                  Samples.excluded None Samples.quiet
    = (Ok Samples.first_out, Samples.first_world) ∧
  ViewBackup.main (br_target_dir Samples.first_out) (br_backup_dir Samples.first_out)
    = Ok (Some {| ViewBackup.sh_total_files := 2;
                  ViewBackup.sh_total_size := 240;
                  ViewBackup.sh_modified_files := 2 |}) ∧
  ViewBackup.load_backup_info (br_target_dir Samples.first_out)
                              (br_backup_dir Samples.first_out)
    = Ok (Some (br_info Samples.first_out)).
Proof.
  split; [vm_compute; reflexivity|]. split; [vm_compute; reflexivity|].
  apply (X8_viewer_agrees_with_summary Samples.first_time (Samples.project "H1") []
           "nightly" None Samples.excluded None Samples.quiet Samples.first_out
           Samples.first_world).
  vm_compute. reflexivity.
Defined.

(** ** Retrying a copy *)

Lemma retry_loop_copy (n delay : nat) (source target : string) :
  ∀ script made naps,
    retry_loop (shutil_copy2 source target) delay n
               {| copy_script := script; copied := made; slept := naps |}
    = match n with
      | 0 => (Ok None, {| copy_script := script; copied := made; slept := naps |})
      | S _ =>
          if decide (Retry.leading_failures script < n)
          then (Ok (Some tt),
                {| copy_script := drop (S (Retry.leading_failures script)) script;
                   copied := made ++ [(source, target)];
                   slept := naps ++ replicate (Retry.leading_failures script) delay |})
          else (Err (CopyError source),
                {| copy_script := drop n script;
                   copied := made;
                   slept := naps ++ replicate (n - 1) delay |})
      end.
Proof.
  induction n as [|n IH]; intros script made naps; [done|].
  cbn [retry_loop]. unfold shutil_copy2 at 1. cbn [copy_script copied slept].
  destruct script as [|[] script]; cbn [Retry.leading_failures].
  - rewrite decide_True by lia. simpl. by rewrite app_nil_r.
  - rewrite decide_True by lia. simpl. by rewrite app_nil_r, drop_0.
  - destruct n as [|n].
    + rewrite decide_False by lia. simpl. by rewrite app_nil_r, drop_0.
    + unfold bind, time_sleep. cbn [copy_script copied slept].
      rewrite IH.
      destruct (decide (Retry.leading_failures script < S n)).
      * rewrite decide_True by lia. simpl. by rewrite <- app_assoc.
      * rewrite decide_False by lia. simpl. by rewrite <- app_assoc, Nat.sub_0_r.
Qed.

(** X9. Retrying a copy with [max_retries] attempts and a fixed delay: if
  fewer than [max_retries] attempts fail in a row, the copy succeeds on
  the next one, having slept once per failure, and the file is copied
  once; if [max_retries] attempts fail, the error of the copy is raised
  after [max_retries - 1] sleeps and nothing is copied; with
  [max_retries = 0] the copy is not even tried and [None] is returned. *)
Theorem X9_retry_on_error_copy (max_retries delay : nat) (source target : string)
    (w : world) :
  (Retry.leading_failures (copy_script w) < max_retries →
   retry_on_error max_retries delay (shutil_copy2 source target) w
   = (Ok (Some tt),
      {| copy_script := drop (S (Retry.leading_failures (copy_script w))) (copy_script w);
         copied := copied w ++ [(source, target)];
         slept := slept w
                  ++ replicate (Retry.leading_failures (copy_script w)) delay |})) ∧
  (0 < max_retries ≤ Retry.leading_failures (copy_script w) →
   retry_on_error max_retries delay (shutil_copy2 source target) w
   = (Err (CopyError source),
      {| copy_script := drop max_retries (copy_script w);
         copied := copied w;
         slept := slept w ++ replicate (max_retries - 1) delay |})) ∧
  (max_retries = 0 →
   retry_on_error max_retries delay (shutil_copy2 source target) w = (Ok None, w)).
Proof.
  destruct w as [script made naps]. unfold retry_on_error. rewrite retry_loop_copy.
  simpl. split_and!.
  - intros Hlt. destruct max_retries; [lia|]. by rewrite decide_True.
  - intros [Hpos Hle]. destruct max_retries; [lia|]. by rewrite decide_False by lia.
  - by intros ->.
Qed.

Lemma X9_retry_on_error_copy_witness :
  Retry.leading_failures (copy_script Samples.flaky) < 3 ∧
  safe_copy_file "a.py" "backup/a.py" Samples.flaky
  = (Ok (Some tt),
     {| copy_script := []; copied := [("a.py", "backup/a.py")]; slept := [1] |}).
Proof.
  assert (Retry.leading_failures (copy_script Samples.flaky) < 3) as Hlt
    by (vm_compute; lia).
  split; [exact Hlt|].
  destruct (X9_retry_on_error_copy 3 1 "a.py" "backup/a.py" Samples.flaky)
    as (Hok & _).
  exact (Hok Hlt).
Defined.

(** ** More on retention *)

Lemma slice_from_drop {A} (k : Z) (l : list A) :
  ∃ n, Py.slice_from k l = drop n l.
Proof. unfold Py.slice_from. destruct (k <? 0)%Z; by eexists. Qed.

Lemma slice_from_negative {A} (k : nat) (l : list A) :
  0 < k → Py.slice_from (- Z.of_nat k) l = drop (length l - k) l.
Proof.
  intros Hk. unfold Py.slice_from.
  destruct (Z.ltb_spec (- Z.of_nat k) 0); [|lia]. f_equal. lia.
Qed.

(** X10. A negative keep-count [-k] does not keep a fixed number of
  backups: it deletes the [k] oldest backup entries (all of them if there
  are fewer), none of them newer than an entry that stays. *)
Theorem X10_negative_keep_count_deletes_k_oldest (target_dir : list entry) (k : nat) :
  0 < k →
  ∃ kept,
    kept ++ fst (cleanup_old_backups target_dir (- Z.of_nat k))
      ≡ₚ List.filter is_backup target_dir ∧
    length (fst (cleanup_old_backups target_dir (- Z.of_nat k)))
      = k `min` length (List.filter is_backup target_dir) ∧
    none_newer kept (fst (cleanup_old_backups target_dir (- Z.of_nat k))).
Proof.
  intros Hk. unfold cleanup_old_backups. simpl. rewrite slice_from_negative by done.
  set (backups := List.filter is_backup target_dir).
  set (sorted := Py.sort_by (fun a b => (e_mtime b <=? e_mtime a)%Z) backups).
  assert (sorted ≡ₚ backups) as Hperm by apply sort_by_perm.
  assert (StronglySorted newer_first sorted) as Hsorted by apply sort_newest_first.
  rewrite <- (take_drop (length sorted - k) sorted) in Hsorted.
  apply StronglySorted_app in Hsorted as (Hcross & _ & _).
  exists (take (length sorted - k) sorted). split_and!.
  - by rewrite take_drop.
  - rewrite length_drop, <- Hperm. lia.
  - intros a d Ha Hd. by apply Hcross.
Qed.

Lemma X10_negative_keep_count_deletes_k_oldest_witness :
  e_name <$> fst (cleanup_old_backups Samples.shelf (-1)) = ["20240101_120000"] ∧
  ∃ kept,
    kept ++ fst (cleanup_old_backups Samples.shelf (- Z.of_nat 1))
      ≡ₚ List.filter is_backup Samples.shelf ∧
    length (fst (cleanup_old_backups Samples.shelf (- Z.of_nat 1)))
      = 1 `min` length (List.filter is_backup Samples.shelf) ∧
    none_newer kept (fst (cleanup_old_backups Samples.shelf (- Z.of_nat 1))).
Proof.
  split; [reflexivity|].
  apply (X10_negative_keep_count_deletes_k_oldest Samples.shelf 1). lia.
Defined.

Lemma sublist_List_filter {A} (f : A → bool) (l : list A) :
  sublist (List.filter f l) l.
Proof.
  induction l as [|x l IH]; simpl; [constructor|].
  destruct (f x); by constructor.
Qed.

(** X11. Whatever the keep-count, the retention manager deletes only
  directories and zip files that are in the destination root: every other
  entry stays, and what is left keeps the order of the listing. *)
Theorem X11_retention_touches_backups_only (target_dir : list entry) (keep_count : Z) :
  NoDup (e_name <$> target_dir) →
  (∀ d, d ∈ fst (cleanup_old_backups target_dir keep_count) →
        d ∈ target_dir ∧ is_backup d = true) ∧
  (∀ e, e ∈ target_dir → is_backup e = false →
        e ∈ snd (cleanup_old_backups target_dir keep_count)) ∧
  sublist (snd (cleanup_old_backups target_dir keep_count)) target_dir.
Proof.
  intros Hnames. unfold cleanup_old_backups. simpl.
  destruct (slice_from_drop keep_count
              (Py.sort_by (fun a b => (e_mtime b <=? e_mtime a)%Z)
                          (List.filter is_backup target_dir))) as [n ->].
  assert (∀ d, d ∈ drop n (Py.sort_by (fun a b => (e_mtime b <=? e_mtime a)%Z)
                             (List.filter is_backup target_dir)) →
               d ∈ target_dir ∧ is_backup d = true) as Hdel.
  { intros d Hd. apply (subseteq_drop n) in Hd.
    rewrite sort_by_perm in Hd. by apply elem_of_List_filter in Hd. }
  split_and!; [done| |apply sublist_List_filter].
  intros e He Hnot. apply elem_of_List_filter. split; [done|].
  apply negb_true_iff, bool_decide_eq_false.
  intros (d & Hname & Hd)%list_elem_of_fmap.
  destruct (Hdel d Hd) as [Hin Hback].
  rewrite (names_determine target_dir e d) in Hnot by done. congruence.
Qed.

Lemma X11_retention_touches_backups_only_witness :
  NoDup (e_name <$> Samples.shelf) ∧
  e_name <$> snd (cleanup_old_backups Samples.shelf 0) = ["notes.txt"] ∧
  sublist (snd (cleanup_old_backups Samples.shelf 0)) Samples.shelf.
Proof.
  assert (NoDup (e_name <$> Samples.shelf)) as Hnames.
  { apply (bool_decide_unpack _). vm_compute. exact I. }
  split; [exact Hnames|]. split; [reflexivity|].
  apply (X11_retention_touches_backups_only Samples.shelf 0 Hnames).
Defined.

(** X12. Cleaning up twice with the same keep-count is cleaning up once:
  on the listing a clean-up leaves, a second clean-up deletes nothing. *)
Theorem X12_retention_is_idempotent (target_dir : list entry) (N : nat) :
  NoDup (e_name <$> target_dir) →
  cleanup_old_backups (snd (cleanup_old_backups target_dir (Z.of_nat N))) (Z.of_nat N)
  = ([], snd (cleanup_old_backups target_dir (Z.of_nat N))).
Proof.
  intros Hnames. unfold cleanup_old_backups at 2 3. simpl. rewrite slice_from_count.
  set (sorted := Py.sort_by (fun a b => (e_mtime b <=? e_mtime a)%Z)
                            (List.filter is_backup target_dir)).
  set (left := List.filter
                 (fun item => negb (bool_decide (e_name item ∈ e_name <$> drop N sorted)))
                 target_dir).
  assert (length (List.filter is_backup left) ≤ N) as Hfew.
  { transitivity (length (take N sorted)); [|rewrite length_take; lia].
    apply submseteq_length, NoDup_submseteq.
    - apply NoDup_List_filter, NoDup_List_filter. by eapply NoDup_fmap_1.
    - intros x [[Hx Hkept]%elem_of_List_filter Hback]%elem_of_List_filter.
      apply negb_true_iff, bool_decide_eq_false in Hkept.
      assert (x ∈ sorted) as Hsorted.
      { unfold sorted. rewrite sort_by_perm. by apply elem_of_List_filter. }
      rewrite <- (take_drop N sorted) in Hsorted.
      apply elem_of_app in Hsorted as [?|Hdropped]; [done|].
      destruct Hkept. by apply list_elem_of_fmap_2. }
  unfold cleanup_old_backups. rewrite slice_from_count.
  rewrite drop_ge by (by rewrite sort_by_perm). f_equal.
  apply List_filter_all. intros e _. apply negb_true_iff, bool_decide_eq_false.
  simpl. apply not_elem_of_nil.
Qed.

Lemma X12_retention_is_idempotent_witness :
  NoDup (e_name <$> Samples.shelf) ∧
  e_name <$> fst (cleanup_old_backups Samples.shelf 2) = ["20240101_120000"] ∧
  cleanup_old_backups (snd (cleanup_old_backups Samples.shelf (Z.of_nat 2))) (Z.of_nat 2)
  = ([], snd (cleanup_old_backups Samples.shelf (Z.of_nat 2))).
Proof.
  assert (NoDup (e_name <$> Samples.shelf)) as Hnames.
  { apply (bool_decide_unpack _). vm_compute. exact I. }
  split; [exact Hnames|]. split; [reflexivity|].
  apply (X12_retention_is_idempotent Samples.shelf 2 Hnames).
Defined.

(** ** Selecting packages *)

Lemma existsb_find {A} (p : A → bool) (l : list A) :
  existsb p l = true ↔ ∃ x, List.find p l = Some x.
Proof.
  induction l as [|y l IH]; simpl.
  - split; [done|by intros [? ?]].
  - destruct (p y); simpl; [split; [by eexists|done]|exact IH].
Qed.

(** X13. With environment names given and the locations of the working
  set written in ASCII, [get_installed_packages] returns exactly the
  distributions whose lowercased location contains one of the names,
  each labelled with the first such name in iteration order;
  distributions that match no name are dropped.  With no name (absent or
  empty) it returns every distribution, unlabelled.  In both cases the
  order of the working set is kept. *)
Theorem X13_packages_selected_by_location (ws : list distribution)
    (env_info_name : option (list string)) :
  (names_given env_info_name ≠ [] →
   Forall (fun pkg => Packages.ascii_only (pkg_location pkg) = true) ws →
   ∀ p, p ∈ get_installed_packages ws env_info_name ↔
        ∃ pkg env, pkg ∈ ws ∧
                   Packages.first_match (names_given env_info_name) pkg = Some env ∧
                   p = Packages.labelled env pkg) ∧
  (names_given env_info_name = [] →
   get_installed_packages ws env_info_name = Packages.plain <$> ws) ∧
  sublist (p_name <$> get_installed_packages ws env_info_name) (pkg_key <$> ws).
Proof.
  unfold get_installed_packages. split_and!.
  - intros Hnames _ p. destruct (names_given env_info_name) as [|n ns] eqn:Hn; [done|].
    rewrite list_elem_of_omap. split.
    + intros (pkg & Hpkg & Hp).
      destruct (existsb _ (n :: ns)) eqn:Hex; [|done].
      apply existsb_find in Hex as [env Henv].
      exists pkg, env. split; [done|]. split; [exact Henv|].
      simplify_eq. unfold Packages.labelled. f_equal. exact Henv.
    + intros (pkg & env & Hpkg & Hfind & ->). exists pkg. split; [done|].
      assert (existsb (fun env_name =>
                         Py.contains env_name (Py.lower (pkg_location pkg))) (n :: ns)
              = true) as -> by (apply existsb_find; by eexists).
      unfold Packages.labelled. f_equal. f_equal. exact Hfind.
  - intros ->. induction ws as [|pkg ws IH]; simpl; [done|]. by f_equal.
  - destruct (names_given env_info_name) as [|n ns].
    + induction ws as [|pkg ws IH]; simpl; by constructor.
    + induction ws as [|pkg ws IH]; simpl; [constructor|].
      match goal with |- context [if ?b then _ else _] => destruct b end;
        simpl; by constructor.
Qed.

Lemma X13_packages_selected_by_location_witness :
  names_given (Some ["lcychat"; "openmmlab"]) ≠ [] ∧
  Forall (fun pkg => Packages.ascii_only (pkg_location pkg) = true) Samples.packages ∧
  p_name <$> get_installed_packages Samples.packages (Some ["lcychat"; "openmmlab"])
    = ["numpy"; "mmcv"] ∧
  Packages.labelled "openmmlab"
    {| pkg_key := "mmcv"; pkg_version := "2.1.0";
       pkg_location := "/root/miniconda3/envs/openmmlab/lib/python3.8/site-packages" |}
    ∈ get_installed_packages Samples.packages (Some ["lcychat"; "openmmlab"]).
Proof.
  assert (names_given (Some ["lcychat"; "openmmlab"]) ≠ []) as Hnames by done.
  assert (Forall (fun pkg => Packages.ascii_only (pkg_location pkg) = true)
                 Samples.packages) as Hascii by (repeat constructor).
  split; [exact Hnames|]. split; [exact Hascii|]. split; [reflexivity|].
  destruct (X13_packages_selected_by_location Samples.packages
              (Some ["lcychat"; "openmmlab"])) as (Hiff & _).
  apply (Hiff Hnames Hascii). eexists _, _. split; [|split; [|reflexivity]].
  - right. left.
  - vm_compute. reflexivity.
Defined.

Lemma lower_ascii_not_upper (c : ascii) : Packages.is_upper (Py.lower_ascii c) = false.
Proof. by destruct c as [[] [] [] [] [] [] [] []]. Qed.

Lemma lower_has_no_upper (s : string) : Packages.has_upper (Py.lower s) = false.
Proof.
  induction s as [|c s IH]; simpl; [done|]. by rewrite lower_ascii_not_upper, IH.
Qed.

Lemma prefix_has_upper (a b : string) :
  String.prefix a b = true → Packages.has_upper a = true → Packages.has_upper b = true.
Proof.
  revert b. induction a as [|c a IH]; intros [|c' b]; simpl; try done.
  destruct (ascii_dec c c') as [->|]; [|done].
  intros Hpre [Hc|Ha]%orb_prop; apply orb_true_iff; [by left|right; by apply IH].
Qed.

Lemma contains_has_upper (needle hay : string) :
  Py.contains needle hay = true →
  Packages.has_upper needle = true → Packages.has_upper hay = true.
Proof.
  intros Hin Hup. induction hay as [|c hay IH]; simpl in Hin.
  - apply orb_prop in Hin as [Hpre|?]; [|done]. by apply (prefix_has_upper needle "").
  - apply orb_prop in Hin as [Hpre|Hrest].
    + by apply (prefix_has_upper needle (String c hay)).
    + simpl. apply orb_true_iff. right. by apply IH.
Qed.

(** X14. Names are looked for in the lowercased location: when every name
  given has a capital letter of [A-Z], no distribution is selected. *)
Theorem X14_capitalised_names_select_nothing (ws : list distribution)
    (names : list string) :
  names ≠ [] →
  Forall (fun name => Packages.has_upper name = true) names →
  get_installed_packages ws (Some names) = [].
Proof.
  intros Hne Hupper. unfold get_installed_packages. simpl.
  destruct names as [|n ns]; [done|].
  induction ws as [|pkg ws IH]; [done|]. cbn [omap list_omap].
  assert (existsb (fun env_name => Py.contains env_name (Py.lower (pkg_location pkg)))
                  (n :: ns) = false) as ->; [|exact IH].
  apply not_true_iff_false. intros (env & Henv & Hin)%existsb_exists.
  rewrite Forall_forall in Hupper.
  pose proof (contains_has_upper _ _ Hin (Hupper env (proj2 (list_elem_of_In _ _) Henv)))
    as Hbad.
  by rewrite lower_has_no_upper in Hbad.
Qed.

Lemma X14_capitalised_names_select_nothing_witness :
  Forall (fun name => Packages.has_upper name = true) ["LCYchat"] ∧
  get_installed_packages Samples.packages (Some ["LCYchat"]) = [] ∧
  p_name <$> get_installed_packages Samples.packages (Some ["lcychat"]) = ["numpy"].
Proof.
  assert (Forall (fun name => Packages.has_upper name = true) ["LCYchat"]) as Hupper
    by (repeat constructor).
  split; [exact Hupper|]. split; [|reflexivity].
  apply (X14_capitalised_names_select_nothing Samples.packages ["LCYchat"]);
    [done|exact Hupper].
Defined.

(** ** Requirements files *)

Lemma add_to_env_grouped env pkg seen (d : list (string * list package_info)) :
  Packages.env_of pkg = env →
  Packages.grouped seen d →
  Packages.grouped (seen ++ [pkg]) (add_to_env env pkg d).
Proof.
  intros Henv (Hkeys & Hsound & Hcomplete & Hsum).
  assert (∀ e ps, (e, ps) ∈ add_to_env env pkg d →
            (e, ps) ∈ d ∨
            (e = env ∧ ∃ ps0, ps = ps0 ++ [pkg] ∧ (ps0 = [] ∨ (env, ps0) ∈ d))) as Hadd.
  { clear. induction d as [|[e0 ps0] d IH]; simpl; intros e ps Hin.
    - apply list_elem_of_singleton in Hin. simplify_eq. right. split; [done|].
      exists []. by split; [|left].
    - destruct (String.eqb_spec e0 env) as [->|Hne].
      + apply elem_of_cons in Hin as [?|?]; [simplify_eq|left; by right].
        right. split; [done|]. exists ps0. split; [done|]. right. by left.
      + apply elem_of_cons in Hin as [?|Hin]; [simplify_eq; left; by left|].
        destruct (IH _ _ Hin) as [?|(-> & ps1 & -> & [->|?])].
        * left. by right.
        * right. split; [done|]. exists []. by split; [|left].
        * right. split; [done|]. exists ps1. split; [done|]. right. by right. }
  assert (∀ e ps, (e, ps) ∈ d →
            ∃ ps', (e, ps') ∈ add_to_env env pkg d ∧ ∀ p, p ∈ ps → p ∈ ps') as Hkeep.
  { clear. induction d as [|[e0 ps0] d IH]; simpl; intros e ps Hin;
      [by apply elem_of_nil in Hin|].
    destruct (String.eqb_spec e0 env) as [->|Hne];
      apply elem_of_cons in Hin as [?|Hin]; simplify_eq.
    - exists (ps0 ++ [pkg]). split; [by left|]. intros p ?. apply elem_of_app. by left.
    - exists ps. split; [by right|done].
    - exists ps0. split; [by left|done].
    - destruct (IH _ _ Hin) as (ps' & ? & ?). exists ps'. split; [by right|done]. }
  assert (∃ ps, (env, ps) ∈ add_to_env env pkg d ∧ pkg ∈ ps) as Hnew.
  { clear. induction d as [|[e0 ps0] d IH]; simpl.
    - exists [pkg]. split; by left.
    - destruct (String.eqb_spec e0 env) as [->|Hne].
      + exists (ps0 ++ [pkg]). split; [by left|]. apply elem_of_app. right. by left.
      + destruct IH as (ps & ? & ?). exists ps. split; [by right|done]. }
  assert (∀ e, e ∈ fst <$> add_to_env env pkg d → e = env ∨ e ∈ fst <$> d) as Hfrom.
  { intros e ([e' ps] & -> & Hin)%list_elem_of_fmap.
    destruct (Hadd _ _ Hin) as [?|[-> _]]; [right|by left].
    apply list_elem_of_fmap. by exists (e', ps). }
  split_and!.
  - clear -Hkeys Hfrom. induction d as [|[e0 ps0] d IH]; simpl.
    + apply NoDup_singleton.
    + simpl in Hkeys. apply NoDup_cons in Hkeys as [Hfresh Hrest].
      destruct (String.eqb_spec e0 env) as [->|Hne]; simpl.
      * by apply NoDup_cons.
      * apply NoDup_cons. split.
        -- intros ([e' ps] & Heq & Hin)%list_elem_of_fmap. simpl in Heq. subst e'.
           clear IH Hfrom. induction d as [|[e1 ps1] d IH]; simpl in *.
           ++ apply list_elem_of_singleton in Hin. by simplify_eq.
           ++ apply not_elem_of_cons in Hfresh as [? ?].
              apply NoDup_cons in Hrest as [? ?].
              destruct (String.eqb e1 env);
                apply elem_of_cons in Hin as [?|Hin]; simplify_eq.
              ** apply H0. apply list_elem_of_fmap. by exists (e0, ps).
              ** by apply IH.
        -- apply IH; [done|].
           intros e ([e' ps] & -> & Hin)%list_elem_of_fmap. simpl.
           clear -Hin. induction d as [|[e1 ps1] d IH]; simpl in *.
           ++ apply list_elem_of_singleton in Hin. simplify_eq. by left.
           ++ destruct (String.eqb_spec e1 env) as [->|?];
                apply elem_of_cons in Hin as [?|Hin]; simplify_eq.
              ** by left.
              ** right. right. apply list_elem_of_fmap. by exists (e', ps).
              ** right. by left.
              ** destruct (IH Hin) as [?|?]; [by left|right; by right].
  - intros e ps Hin p Hp.
    destruct (Hadd _ _ Hin) as [Hold|(-> & ps0 & -> & Hps0)].
    + destruct (Hsound _ _ Hold p Hp). split; [done|]. apply elem_of_app. by left.
    + apply elem_of_app in Hp as [Hp|Hp%list_elem_of_singleton].
      * destruct Hps0 as [->|Hold]; [by apply elem_of_nil in Hp|].
        destruct (Hsound _ _ Hold p Hp). split; [done|]. apply elem_of_app. by left.
      * subst p. split; [done|]. apply elem_of_app. right. by left.
  - intros p [Hp|Hp%list_elem_of_singleton]%elem_of_app.
    + destruct (Hcomplete p Hp) as (ps & Hin & Hpin).
      destruct (Hkeep _ _ Hin) as (ps' & ? & Hsub). exists ps'. split; [done|by apply Hsub].
    + subst p. by rewrite Henv.
  - rewrite length_app. simpl. rewrite <- Hsum. clear.
    induction d as [|[e0 ps0] d IH]; simpl; [done|].
    destruct (String.eqb e0 env); simpl.
    + rewrite length_app. simpl. lia.
    + rewrite <- Nat.add_assoc. f_equal. exact IH.
Qed.

Lemma group_by_env_grouped (pkgs : list package_info) :
  Packages.grouped pkgs (group_by_env pkgs).
Proof.
  unfold group_by_env.
  assert (∀ rest seen d,
            Packages.grouped seen d →
            Packages.grouped (seen ++ rest)
              (foldl (fun env_packages pkg =>
                        add_to_env (default "unknown" (p_environment pkg)) pkg env_packages)
                     d rest)) as Hfold.
  { induction rest as [|p rest IH]; intros seen d Hd; simpl.
    - by rewrite app_nil_r.
    - rewrite (cons_middle p seen rest), app_assoc. apply IH.
      by apply add_to_env_grouped. }
  apply (Hfold pkgs [] []). split_and!; try done; [constructor|..].
  - by intros ? ? ?%elem_of_nil.
  - by intros ? ?%elem_of_nil.
Qed.

Lemma length_append (a b : string) :
  String.length (a +:+ b) = String.length a + String.length b.
Proof. induction a as [|c a IH]; simpl; [done|]. by rewrite IH. Qed.

Lemma append_inj_r (a b s : string) : a +:+ s = b +:+ s → a = b.
Proof.
  revert b. induction a as [|c a IH]; intros [|c' b] Heq; simpl in *.
  - done.
  - apply (f_equal String.length) in Heq. simpl in Heq.
    rewrite !length_append in Heq. simpl in Heq. lia.
  - apply (f_equal String.length) in Heq. simpl in Heq.
    rewrite !length_append in Heq. simpl in Heq. lia.
  - injection Heq as -> Heq. f_equal. by apply IH.
Qed.

Lemma requirements_name_inj (env1 env2 : string) :
  "requirements_" +:+ env1 +:+ ".txt" = "requirements_" +:+ env2 +:+ ".txt" →
  env1 = env2.
Proof. intros Heq. apply (inj (String.app "requirements_")) in Heq. by eapply append_inj_r. Qed.

Lemma requirement_lines_elem (pkgs : list package_info) (l : string) :
  l ∈ requirement_lines pkgs ↔ ∃ p, p ∈ pkgs ∧ l = Packages.line p.
Proof.
  unfold requirement_lines. rewrite list_elem_of_fmap.
  split.
  - intros (p & -> & Hp). exists p. split; [by rewrite sort_by_perm in Hp|done].
  - intros (p & Hp & ->). exists p. split; [done|by rewrite sort_by_perm].
Qed.

Lemma requirement_lines_length (pkgs : list package_info) :
  length (requirement_lines pkgs) = length pkgs.
Proof. unfold requirement_lines. by rewrite length_fmap, sort_by_perm. Qed.

Lemma write_requirements_groups (pkgs : list package_info)
    (env_info_name : option (list string)) :
  names_given env_info_name ≠ [] →
  write_requirements pkgs env_info_name
  = (fun g => ("requirements_" +:+ fst g +:+ ".txt", requirement_lines (snd g)))
      <$> group_by_env pkgs.
Proof.
  intros Hnames. unfold write_requirements.
  destruct pkgs as [|p pkgs]; [done|].
  destruct (names_given env_info_name); [done|].
  apply list_fmap_ext. by intros ? [env ps].
Qed.

(** X15. With environment names in force, the packages are spread over
  one requirements file per environment found: the file names are
  distinct, each file [requirements_<env>.txt] lists packages of that
  environment only, every package has its line in the file of its
  environment, and the files hold as many lines as there are packages. *)
Theorem X15_one_requirements_file_per_environment (pkgs : list package_info)
    (env_info_name : option (list string)) :
  names_given env_info_name ≠ [] →
  NoDup (fst <$> write_requirements pkgs env_info_name) ∧
  (∀ file lines, (file, lines) ∈ write_requirements pkgs env_info_name →
     ∃ env, file = "requirements_" +:+ env +:+ ".txt" ∧
            ∀ l, l ∈ lines →
              ∃ p, p ∈ pkgs ∧ Packages.env_of p = env ∧ l = Packages.line p) ∧
  (∀ p, p ∈ pkgs →
     ∃ lines, ("requirements_" +:+ Packages.env_of p +:+ ".txt", lines)
                ∈ write_requirements pkgs env_info_name ∧
              Packages.line p ∈ lines) ∧
  sum_list (length ∘ snd <$> write_requirements pkgs env_info_name) = length pkgs.
Proof.
  intros Hnames. rewrite write_requirements_groups by done.
  destruct (group_by_env_grouped pkgs) as (Hkeys & Hsound & Hcomplete & Hsum).
  split_and!.
  - rewrite <- list_fmap_compose.
    apply (NoDup_fmap_2_strong _ (group_by_env pkgs)).
    + intros [e1 ps1] [e2 ps2] H1 H2 Heq. simpl in Heq.
      apply requirements_name_inj in Heq as ->.
      f_equal. clear -Hkeys H1 H2.
      induction (group_by_env pkgs) as [|[e ps] d IH]; [by apply elem_of_nil in H1|].
      simpl in Hkeys. apply NoDup_cons in Hkeys as [Hfresh Hrest].
      apply elem_of_cons in H1 as [?|H1]; apply elem_of_cons in H2 as [?|H2];
        simplify_eq; try done.
      * destruct Hfresh. apply list_elem_of_fmap. by exists (e, ps2).
      * destruct Hfresh. apply list_elem_of_fmap. by exists (e, ps1).
      * by apply IH.
    + by eapply NoDup_fmap_1.
  - intros file lines ([env ps] & Heq & Hin)%list_elem_of_fmap. simpl in Heq.
    simplify_eq. exists env. split; [done|].
    intros l (p & Hp & ->)%requirement_lines_elem.
    destruct (Hsound _ _ Hin p Hp). by exists p.
  - intros p Hp. destruct (Hcomplete p Hp) as (ps & Hin & Hpin).
    exists (requirement_lines ps). split.
    + apply list_elem_of_fmap. by exists (Packages.env_of p, ps).
    + apply requirement_lines_elem. by exists p.
  - rewrite <- Hsum, <- list_fmap_compose. f_equal. apply list_fmap_ext.
    intros ? [env ps] _. simpl. apply requirement_lines_length.
Qed.

Lemma X15_one_requirements_file_per_environment_witness :
  names_given (Some (hard_coded_env_names Samples.first_time)) ≠ [] ∧
  write_requirements (bi_packages (br_info Samples.first_out))
                     (Some (hard_coded_env_names Samples.first_time))
    = [("requirements_lcychat.txt", ["numpy==1.26.0"]);
       ("requirements_openmmlab.txt", ["mmcv==2.1.0"])] ∧
  NoDup (fst <$> write_requirements (bi_packages (br_info Samples.first_out))
                   (Some (hard_coded_env_names Samples.first_time))).
Proof.
  assert (names_given (Some (hard_coded_env_names Samples.first_time)) ≠ []) as Hnames
    by done.
  split; [exact Hnames|]. split; [reflexivity|].
  apply (X15_one_requirements_file_per_environment
           (bi_packages (br_info Samples.first_out))
           (Some (hard_coded_env_names Samples.first_time)) Hnames).
Defined.

Lemma insert_by_name_sorted (x : package_info) (l : list package_info) :
  StronglySorted (fun a b => String.le (p_name a) (p_name b)) l →
  StronglySorted (fun a b => String.le (p_name a) (p_name b))
    (Py.insert_by (fun a b => String.leb (p_name a) (p_name b)) x l).
Proof.
  induction 1 as [|y l Hl IH Hy]; simpl; [by repeat constructor|].
  destruct (String.leb (p_name x) (p_name y)) eqn:Hxy.
  - constructor; [by constructor|].
    constructor; [by apply Is_true_true|].
    eapply Forall_impl; [exact Hy|]. intros z Hz. simpl in Hz.
    etrans; [|exact Hz]. by apply Is_true_true.
  - constructor; [done|]. rewrite insert_by_perm. constructor; [|done].
    destruct (String.leb_total (p_name x) (p_name y)) as [Hle|Hle]; [congruence|].
    by apply Is_true_true.
Qed.

(** X16. The lines of a requirements file are the [name==version] lines of
  its packages, each once, in ascending order of package name. *)
Theorem X16_requirement_lines_sorted_by_name (pkgs : list package_info) :
  ∃ sorted,
    requirement_lines pkgs = Packages.line <$> sorted ∧
    sorted ≡ₚ pkgs ∧
    StronglySorted (fun a b => String.le (p_name a) (p_name b)) sorted.
Proof.
  exists (Py.sort_by (fun a b => String.leb (p_name a) (p_name b)) pkgs).
  split; [done|]. split; [apply sort_by_perm|].
  induction pkgs as [|p pkgs IH]; simpl; [constructor|].
  by apply insert_by_name_sorted.
Qed.

Lemma add_to_env_keys env pkg (d : list (string * list package_info)) e :
  e ∈ fst <$> add_to_env env pkg d → e = env ∨ e ∈ fst <$> d.
Proof.
  induction d as [|[e0 ps0] d IH]; simpl.
  - intros ?%list_elem_of_singleton. by left.
  - destruct (String.eqb_spec e0 env) as [->|Hne]; simpl.
    + intros [->|?]%elem_of_cons; [by left|right; by right].
    + intros [->|Hin]%elem_of_cons; [right; by left|].
      destruct (IH Hin) as [?|?]; [by left|right; by right].
Qed.

Lemma group_by_env_keys (pkgs : list package_info) (e : string) :
  e ∈ fst <$> group_by_env pkgs → ∃ p, p ∈ pkgs ∧ Packages.env_of p = e.
Proof.
  unfold group_by_env.
  assert (∀ rest d,
            e ∈ fst <$> foldl (fun env_packages pkg =>
                                 add_to_env (default "unknown" (p_environment pkg))
                                            pkg env_packages) d rest →
            e ∈ fst <$> d ∨ ∃ p, p ∈ rest ∧ Packages.env_of p = e) as Hfold.
  { induction rest as [|p rest IH]; intros d Hin; simpl in *; [by left|].
    destruct (IH _ Hin) as [Hd|(q & ? & ?)].
    - apply add_to_env_keys in Hd as [->|?]; [right|by left].
      exists p. split; [by left|done].
    - right. exists q. split; [by right|done]. }
  intros Hin. destruct (Hfold pkgs [] Hin) as [?%elem_of_nil|?]; done.
Qed.

Lemma selected_package_label (ws : list distribution) (names : list string)
    (p : package_info) :
  names ≠ [] →
  p ∈ get_installed_packages ws (Some names) →
  ∃ pkg env, p = Packages.labelled env pkg ∧ env ∈ names.
Proof.
  intros Hne Hp. unfold get_installed_packages in Hp. simpl in Hp.
  destruct names as [|n ns]; [done|].
  apply list_elem_of_omap in Hp as (pkg & _ & Hp).
  destruct (existsb _ (n :: ns)) eqn:Hex; [|done].
  apply existsb_find in Hex as [env Henv].
  exists pkg, env. split.
  - simplify_eq. unfold Packages.labelled. f_equal. exact Henv.
  - apply List.find_some in Henv as [? _]. by apply list_elem_of_In.
Qed.

(** X17. The engine and the restorer agree on names: every requirements
  file a completed run writes is [requirements_<env>.txt] for one of the
  environment names written in the engine, and the restorer, asked for
  that environment, installs from exactly that file whenever the backup
  directory holds it. *)
Theorem X17_restorer_finds_the_engine_fragments h source_dir target_dir description
    tags exclude_folders env_info_name w out w' :
  copy_code_files h source_dir target_dir description tags exclude_folders
                  env_info_name w = (Ok out, w') →
  ∀ file lines, (file, lines) ∈ br_requirements out →
    ∃ env,
      env ∈ hard_coded_env_names h ∧
      file = "requirements_" +:+ env +:+ ".txt" ∧
      ∀ backup_dir, file ∈ backup_dir →
        RestoreEnv.main backup_dir (Some env)
        = [RestoreEnv.CreateVirtualEnv ("~/.virtualenvs/" +:+ env);
           RestoreEnv.InstallRequirements ("~/.virtualenvs/" +:+ env) file].
Proof.
  intros Hrun file lines Hin.
  apply copy_code_files_inv in Hrun as (_ & _ & _ & _ & _ & _ & Hpkgs & Hreq).
  assert (hard_coded_env_names h ≠ []) as Hhard
    by (unfold hard_coded_env_names; by destruct (lcychat_first h)).
  rewrite Hreq in Hin. rewrite write_requirements_groups in Hin by exact Hhard.
  apply list_elem_of_fmap in Hin as ([env ps] & Heq & Hin). simpl in Heq.
  injection Heq as -> ->.
  assert (env ∈ hard_coded_env_names h) as Henv.
  { destruct (group_by_env_keys (bi_packages (br_info out)) env) as (p & Hp & <-).
    { apply list_elem_of_fmap. by exists (env, ps). }
    rewrite Hpkgs in Hp.
    destruct (selected_package_label (working_set h) (hard_coded_env_names h) p)
      as (pkg & e & -> & He); [exact Hhard|done|done]. }
  exists env. split; [done|]. split; [done|].
  intros backup_dir Hfile.
  assert (RestoreEnv.given (Some env) = Some env) as Hgiven.
  { unfold hard_coded_env_names in Henv.
    destruct (lcychat_first h);
      apply elem_of_cons in Henv as [->|Henv]; try done;
      apply elem_of_cons in Henv as [->|Henv]; try done;
      by apply elem_of_nil in Henv. }
  unfold RestoreEnv.main, RestoreEnv.select_req_file, RestoreEnv.exists_in.
  rewrite Hgiven. by rewrite bool_decide_eq_true_2.
Qed.

Lemma X17_restorer_finds_the_engine_fragments_witness :
  copy_code_files Samples.first_time (Samples.project "H1") [] "nightly" None
                  Samples.excluded None Samples.quiet
    = (Ok Samples.first_out, Samples.first_world) ∧
  ("requirements_openmmlab.txt", ["mmcv==2.1.0"]) ∈ br_requirements Samples.first_out ∧
  RestoreEnv.main (fst <$> br_requirements Samples.first_out) (Some "openmmlab")
  = [RestoreEnv.CreateVirtualEnv "~/.virtualenvs/openmmlab";
     RestoreEnv.InstallRequirements "~/.virtualenvs/openmmlab"
                                    "requirements_openmmlab.txt"].
Proof.
  assert (copy_code_files Samples.first_time (Samples.project "H1") [] "nightly" None
                          Samples.excluded None Samples.quiet
          = (Ok Samples.first_out, Samples.first_world)) as Hrun
    by (vm_compute; reflexivity).
  assert (("requirements_openmmlab.txt", ["mmcv==2.1.0"])
            ∈ br_requirements Samples.first_out) as Hin by (right; left).
  split; [exact Hrun|]. split; [exact Hin|].
  destruct (X17_restorer_finds_the_engine_fragments _ _ _ _ _ _ _ _ _ _ Hrun _ _ Hin)
    as (env & _ & Hname & Hmain).
  apply (requirements_name_inj "openmmlab" env) in Hname as <-.
  apply Hmain. right. left.
Defined.

(** ** Archives *)

Lemma append_assoc (a b c : string) : (a +:+ b) +:+ c = a +:+ (b +:+ c).
Proof. induction a as [|x a IH]; [done|]. exact (f_equal (String x) IH). Qed.












Lemma copytree_lookup (files : list (string * file)) (dir : gmap string file) :
  NoDup (fst <$> files) →
  (∀ path f, (path, f) ∈ files →
     foldl (fun dir '(path, f) => <[path := f]> dir) dir files !! path = Some f) ∧
  (∀ path, path ∉ fst <$> files →
     foldl (fun dir '(path, f) => <[path := f]> dir) dir files !! path = dir !! path).
Proof.
  revert dir. induction files as [|[p f] files IH]; intros dir Hnodup; simpl.
  - split; [by intros ? ? ?%elem_of_nil|done].
  - simpl in Hnodup. apply NoDup_cons in Hnodup as [Hfresh Hrest].
    destruct (IH (<[p := f]> dir) Hrest) as [Hin Hout]. split.
    + intros path g [?|Hmem]%elem_of_cons.
      * simplify_eq. rewrite (Hout p Hfresh). apply lookup_insert_eq.
      * by apply Hin.
    + intros path [Hne Hnot]%not_elem_of_cons. rewrite (Hout path Hnot).
      by apply lookup_insert_ne.
Qed.

Lemma copytree_outcome (content : tree) :
  match Archive.copytree content with
  | Archive.Done restored =>
      Forall (fun e => is_Some (f_digest (snd e))) (Archive.files_of content) ∧
      restored = foldl (fun dir '(path, f) => <[path := f]> dir) ∅ (Archive.files_of content)
  | Archive.Failed e =>
      ∃ paths, e = Archive.ShutilError paths ∧
               ∀ path, path ∈ paths ↔
                       ∃ f, (path, f) ∈ Archive.files_of content ∧ f_digest f = None
  end.
Proof.
  unfold Archive.copytree.
  destruct (List.filter _ (Archive.files_of content)) as [|e errors] eqn:Hfilter.
  - split; [|done]. apply Forall_forall. intros [path f] Hin. simpl.
    destruct (f_digest f) as [digest|] eqn:Hdig; [by eexists|].
    assert ((path, f) ∈ List.filter (fun e => bool_decide (f_digest (snd e) = None))
                          (Archive.files_of content)) as Hbad.
    { apply elem_of_List_filter. split; [done|]. by apply bool_decide_eq_true_2. }
    rewrite Hfilter in Hbad. by apply elem_of_nil in Hbad.
  - eexists. split; [done|]. intros path. rewrite <- Hfilter.
    rewrite elem_of_list_to_set, list_elem_of_fmap. split.
    + intros ([p f] & -> & [Hin Hnone]%elem_of_List_filter). simpl.
      exists f. split; [done|]. by apply bool_decide_eq_true_1 in Hnone.
    + intros (f & Hin & Hnone). exists (path, f). split; [done|].
      apply elem_of_List_filter. split; [done|]. by apply bool_decide_eq_true_2.
Qed.

(** X20. Whether [restore_backup] extracts or copies depends on the name
  alone.  A directory whose name ends in [.zip] is taken for an archive
  and cannot be restored.  A directory whose name does not end in [.zip]
  is copied: into an existing restore directory nothing is restored; a
  file that cannot be read makes the call raise [shutil.Error], which
  names it; and when the call returns, the restore directory did not
  exist before, every file could be read, and (paths being distinct) the
  restore directory holds every file at its relative path with all its
  attributes and nothing else. *)
Theorem X20_restore_of_a_directory (backup_path : string) (content : tree) (now : string)
    (restore_dir : option (gmap string file)) :
  (Py.endswith ".zip" backup_path = true →
   Archive.restore_backup backup_path (Archive.Folder content) now restore_dir
     = Archive.Failed Archive.IsADirectoryError) ∧
  (Py.endswith ".zip" backup_path = false →
   (is_Some restore_dir →
    Archive.restore_backup backup_path (Archive.Folder content) now restore_dir
      = Archive.Failed Archive.FileExistsError) ∧
   (restore_dir = None →
    ∀ path f, (path, f) ∈ Archive.files_of content → f_digest f = None →
      ∃ paths,
        Archive.restore_backup backup_path (Archive.Folder content) now restore_dir
          = Archive.Failed (Archive.ShutilError paths) ∧
        path ∈ paths) ∧
   (∀ restored,
      Archive.restore_backup backup_path (Archive.Folder content) now restore_dir
        = Archive.Done restored →
      restore_dir = None ∧
      Forall (fun e => is_Some (f_digest (snd e))) (Archive.files_of content) ∧
      (NoDup (fst <$> Archive.files_of content) →
       (∀ path f, (path, f) ∈ Archive.files_of content → restored !! path = Some f) ∧
       (∀ path, path ∉ fst <$> Archive.files_of content → restored !! path = None)))).
Proof.
  unfold Archive.restore_backup. split; intros ->; [done|].
  pose proof (copytree_outcome content) as Hcopy. split_and!.
  - by intros [? ->].
  - intros -> path f Hin Hnone.
    destruct (Archive.copytree content) as [restored|e].
    + destruct Hcopy as [Hall _]. rewrite Forall_forall in Hall.
      destruct (Hall _ Hin) as [digest Hdig]. simpl in Hdig. congruence.
    + destruct Hcopy as (paths & -> & Hpaths). exists paths. split; [done|].
      apply Hpaths. by exists f.
  - intros restored Hdone. destruct restore_dir as [dir|]; [done|].
    rewrite Hdone in Hcopy. destruct Hcopy as [Hall ->]. split_and!; try done.
    intros Hnodup.
    destruct (copytree_lookup (Archive.files_of content) ∅ Hnodup) as [Hin Hout].
    split; [done|]. intros path Hnot. by rewrite (Hout path Hnot).
Qed.

Lemma X20_restore_of_a_directory_witness :
  Py.endswith ".zip" "20240101_120000" = false ∧
  NoDup (fst <$> Archive.files_of MoreSamples.backed_up) ∧
  (∃ restored,
     Archive.restore_backup "20240101_120000" (Archive.Folder MoreSamples.backed_up)
                            "2024-02-01 08:00:00" None
       = Archive.Done restored ∧
     restored !! "a.py" = Some (Samples.a_py "H1")) ∧
  ∃ paths,
    Archive.restore_backup "20240101_120000" (Archive.Folder MoreSamples.locked_project)
                           "2024-02-01 08:00:00" None
      = Archive.Failed (Archive.ShutilError paths) ∧
    "secret.py" ∈ paths.
Proof.
  assert (Py.endswith ".zip" "20240101_120000" = false) as Hname by reflexivity.
  assert (NoDup (fst <$> Archive.files_of MoreSamples.backed_up)) as Hnodup.
  { apply (bool_decide_unpack _). vm_compute. exact I. }
  split; [exact Hname|]. split; [exact Hnodup|]. split.
  - assert (Archive.restore_backup "20240101_120000"
              (Archive.Folder MoreSamples.backed_up) "2024-02-01 08:00:00" None
            = Archive.Done (foldl (fun dir '(path, f) => <[path := f]> dir) ∅
                              (Archive.files_of MoreSamples.backed_up))) as Hrun
      by reflexivity.
    eexists. split; [exact Hrun|].
    destruct (X20_restore_of_a_directory "20240101_120000" MoreSamples.backed_up
                "2024-02-01 08:00:00" None) as [_ Hcopy].
    destruct (Hcopy Hname) as (_ & _ & Hdone).
    destruct (Hdone _ Hrun) as (_ & _ & Hfiles).
    destruct (Hfiles Hnodup) as [Hin _]. apply Hin. vm_compute. left.
  - destruct (X20_restore_of_a_directory "20240101_120000" MoreSamples.locked_project
                "2024-02-01 08:00:00" None) as [_ Hcopy].
    destruct (Hcopy Hname) as (_ & Hbad & _).
    apply (Hbad eq_refl "secret.py" MoreSamples.locked); [|reflexivity].
    vm_compute. right. left.
Defined.

(** ** Verifying a backup *)

Lemma verify_fold (backup_dir : gmap string file) (files : list file_info) :
  ∀ (v : Checks.verification) (out : Checks.verification),
    foldl (fun results file_info =>
             match results with
             | Err e => Err e
             | Ok verification_results =>
                 match backup_dir !! fi_path file_info with
                 | None =>
                     Ok {| Checks.success := false;
                           Checks.errors := Checks.errors verification_results
                                            ++ [Checks.Missing (fi_path file_info)] |}
                 | Some backup_file =>
                     match f_digest backup_file with
                     | None => Err (FileAccessError (fi_path file_info))
                     | Some backup_hash =>
                         if negb (String.eqb backup_hash (fi_hash file_info))
                         then Ok {| Checks.success := false;
                                    Checks.errors := Checks.errors verification_results
                                              ++ [Checks.Mismatch (fi_path file_info)] |}
                         else Ok verification_results
                     end
                 end
             end) (Ok v) files = Ok out →
    (Checks.success v = true ↔ Checks.errors v = []) →
    (Checks.success out = true ↔ Checks.errors out = []) ∧
    (Checks.success out = true ↔
       Checks.success v = true ∧ Forall (Checks.intact backup_dir) files) ∧
    (∀ path, Checks.Missing path ∈ Checks.errors out ↔
       Checks.Missing path ∈ Checks.errors v ∨
       ∃ r, r ∈ files ∧ fi_path r = path ∧ backup_dir !! path = None).
Proof.
  induction files as [|r files IH]; intros v out Hrun Hv; simpl in Hrun.
  - simplify_eq. split_and!; [done| |].
    + split; [by intros ?|by intros [? _]].
    + intros path. split; [by left|]. intros [?|(r & ?%elem_of_nil & _)]; done.
  - destruct (backup_dir !! fi_path r) as [f|] eqn:Hlook.
    + destruct (f_digest f) as [digest|] eqn:Hdig.
      * destruct (String.eqb_spec digest (fi_hash r)) as [->|Hne]; simpl in Hrun.
        -- destruct (IH _ _ Hrun Hv) as (H1 & H2 & H3). split_and!; [done| |].
           ++ rewrite H2. split.
              ** intros [? ?]. split; [done|]. constructor; [by exists f|done].
              ** intros [? [_ ?]%Forall_cons]. done.
           ++ intros path. rewrite H3. split.
              ** intros [?|(r' & ? & ? & ?)]; [by left|right].
                 exists r'. split; [by right|done].
              ** intros [?|(r' & [->|?]%elem_of_cons & <- & Hnone)]; [by left| |].
                 --- congruence.
                 --- right. by exists r'.
        -- destruct (IH _ _ Hrun) as (H1 & H2 & H3).
           { simpl. split; [done|]. by intros [_ ?]%app_eq_nil. }
           split_and!; [done| |].
           ++ rewrite H2. simpl. split; [by intros [? _]|].
              intros [_ [(g & Hg & Hgd) _]%Forall_cons]. congruence.
           ++ intros path. rewrite H3. simpl. rewrite elem_of_app. split.
              ** intros [[?|Hbad%list_elem_of_singleton]|(r' & ? & ? & ?)];
                   [by left|done|right]. exists r'. split; [by right|done].
              ** intros [?|(r' & [->|?]%elem_of_cons & <- & Hnone)];
                   [left; by left|congruence|right; by exists r'].
      * clear IH. exfalso. revert Hrun. clear. induction files; simpl; [done|auto].
    + destruct (IH _ _ Hrun) as (H1 & H2 & H3).
      { simpl. split; [done|]. by intros [_ ?]%app_eq_nil. }
      split_and!; [done| |].
      * rewrite H2. simpl. split; [by intros [? _]|].
        intros [_ [(g & Hg & _) _]%Forall_cons]. congruence.
      * intros path. rewrite H3. simpl. rewrite elem_of_app. split.
        -- intros [[?|Hhere%list_elem_of_singleton]|(r' & ? & ? & ?)].
           ++ by left.
           ++ simplify_eq. right. exists r. split; [by left|done].
           ++ right. exists r'. split; [by right|done].
        -- intros [?|(r' & [->|?]%elem_of_cons & <- & Hnone)].
           ++ left. by left.
           ++ left. right. by left.
           ++ right. by exists r'.
Qed.

(** X21. [verify_backup], when it returns: it reports success exactly when
  it lists no error, and exactly when every file of the manifest is in
  the backup directory with the recorded digest; a path is listed as
  missing exactly when the manifest has it and the backup directory does
  not; and the source directory has no influence on the result. *)
Theorem X21_verify_backup_contract (source_dir : tree) (backup_dir : gmap string file)
    (info : backup_info) (v : Checks.verification) :
  Checks.verify_backup source_dir backup_dir info = Ok v →
  (Checks.success v = true ↔ Checks.errors v = []) ∧
  (Checks.success v = true ↔ ∀ r, r ∈ bi_files info → Checks.intact backup_dir r) ∧
  (∀ path, Checks.Missing path ∈ Checks.errors v ↔
     ∃ r, r ∈ bi_files info ∧ fi_path r = path ∧ backup_dir !! path = None) ∧
  ∀ other_source, Checks.verify_backup other_source backup_dir info = Ok v.
Proof.
  unfold Checks.verify_backup. intros Hrun.
  destruct (verify_fold backup_dir (bi_files info) _ _ Hrun) as (H1 & H2 & H3); [done|].
  split_and!; [done| | |done].
  - rewrite H2, Forall_forall. simpl. tauto.
  - intros path. rewrite H3. simpl. split; [|by right].
    by intros [?%elem_of_nil|?].
Qed.

Lemma X21_verify_backup_contract_witness :
  Checks.verify_backup (Samples.project "H1") (<["a.py" := Samples.a_py "H1"]> ∅)
                       Samples.old_manifest
    = Ok {| Checks.success := true; Checks.errors := [] |} ∧
  Checks.verify_backup (Samples.project "H1") ∅ Samples.old_manifest
    = Ok {| Checks.success := false; Checks.errors := [Checks.Missing "a.py"] |} ∧
  ∀ r, r ∈ bi_files Samples.old_manifest →
       Checks.intact (<["a.py" := Samples.a_py "H1"]> ∅) r.
Proof.
  assert (Checks.verify_backup (Samples.project "H1") (<["a.py" := Samples.a_py "H1"]> ∅)
            Samples.old_manifest
          = Ok {| Checks.success := true; Checks.errors := [] |}) as Hrun
    by (vm_compute; reflexivity).
  split; [exact Hrun|]. split; [vm_compute; reflexivity|].
  destruct (X21_verify_backup_contract _ _ _ _ Hrun) as (_ & Hintact & _).
  by apply Hintact.
Defined.

Lemma verify_intact (backup_dir : gmap string file) (files : list file_info)
    (source_dir : tree) (info : backup_info) :
  bi_files info = files →
  Forall (Checks.intact backup_dir) files →
  Checks.verify_backup source_dir backup_dir info
  = Ok {| Checks.success := true; Checks.errors := [] |}.
Proof.
  unfold Checks.verify_backup. intros -> Hall.
  generalize {| Checks.success := true; Checks.errors := [] |}.
  induction Hall as [|r files (f & Hf & Hdig) _ IH]; intros v; simpl; [done|].
  rewrite Hf, Hdig, String.eqb_refl. simpl. apply IH.
Qed.

(** ** The backup directory a run leaves *)

Import Checks.

Lemma strip_prefix_append (p rest : string) : strip_prefix p (p +:+ rest) = Some rest.
Proof.
  induction p as [|a p IH]; simpl; [done|]. by rewrite Ascii.eqb_refl.
Qed.

Lemma entry_name_spec (s : string) :
  entry_name s = true → slash_free s = true ∧ s ≠ "" ∧ s ≠ ".".
Proof.
  unfold entry_name. intros [[[? Hne]%andb_prop Hdot]%andb_prop _]%andb_prop.
  split; [done|]. split; intros ->; done.
Qed.

Lemma collapse_components (l : list string) :
  l ≠ [] →
  Forall (fun s => entry_name s = true) l →
  collapse (String.concat "/" l) = String.concat "/" l.
Proof.
  intros Hne Hall. unfold collapse.
  assert (Forall (fun s => slash_free s = true) l) as Hfree.
  { eapply Forall_impl; [exact Hall|]. intros s Hs. exact (proj1 (entry_name_spec s Hs)). }
  rewrite (split_slash_concat l Hne Hfree). f_equal. clear Hne Hfree.
  induction Hall as [|s l Hs _ IH]; [done|]. simpl.
  apply entry_name_spec in Hs as (_ & Hs1 & Hs2).
  destruct (String.eqb_spec s "."); [done|]. destruct (String.eqb_spec s ""); [done|].
  simpl. by f_equal.
Qed.

Lemma concat_snoc (root : list string) (file : string) :
  root ≠ [] →
  String.concat "/" root +:+ "/" +:+ file = String.concat "/" (root ++ [file]).
Proof.
  induction root as [|r root IH]; [done|]. intros _.
  destruct root as [|r' root]; [done|].
  change (String.concat "/" (r :: r' :: root))
    with (r +:+ "/" +:+ String.concat "/" (r' :: root)).
  change (String.concat "/" ((r :: r' :: root) ++ [file]))
    with (r +:+ "/" +:+ String.concat "/" ((r' :: root) ++ [file])).
  rewrite <- IH by done. by rewrite !append_assoc.
Qed.

Lemma below_copy_of backup_dir (c : list string * (string * file)) :
  Forall (fun s => entry_name s = true) (fst c ++ [fst (snd c)]) →
  below backup_dir (snd (copy_of backup_dir c)) = Some (relpath (fst c) (fst (snd c))).
Proof.
  destruct c as [root [file f]]. simpl. intros Hnames.
  unfold below, copy_of, join, relpath. simpl.
  rewrite !append_assoc, <- (append_assoc backup_dir "/"), strip_prefix_append. simpl.
  f_equal. destruct root as [|r root].
  - simpl in Hnames. apply List.Forall_inv in Hnames.
    apply entry_name_spec in Hnames as (Hfree & Hne & Hdot).
    unfold collapse. change (relroot []) with ".".
    rewrite (split_slash_app "." file) by done. rewrite split_slash_free by done.
    simpl. destruct (String.eqb_spec file "."); [done|].
    by destruct (String.eqb_spec file "").
  - change (relroot (r :: root)) with (String.concat "/" (r :: root)).
    rewrite concat_snoc by done. by apply collapse_components.
Qed.

Lemma walk_unpruned exclude t :
  ∀ prefix root dirs files,
    (root, dirs, files) ∈ walk exclude prefix t →
    ∃ dirs', (root, dirs', files) ∈ walk ∅ prefix t.
Proof.
  induction t as [files0 dirs0 IH] using tree_nested_ind.
  intros prefix root dirs files. simpl. rewrite elem_of_cons. intros [Heq|Hin].
  - simplify_eq. eexists. by left.
  - assert (∃ dirs', (root, dirs', files) ∈
              (fix descend (ds : list (string * tree)) :=
                 match ds with
                 | [] => []
                 | (d, sub) :: ds' =>
                     if decide (d ∈ (∅ : gset string))
                     then descend ds'
                     else walk ∅ (prefix ++ [d]) sub ++ descend ds'
                 end) dirs0) as [dirs' Hdirs'];
      [|exists dirs'; by right].
    induction dirs0 as [|[d sub] ds IHds]; [by apply elem_of_nil in Hin|].
    apply Forall_cons in IH as [IHd IHrest].
    rewrite decide_False by set_solver.
    case_decide as Hdec.
    + destruct (IHds IHrest Hin) as [dirs' ?]. exists dirs'.
      apply elem_of_app. by right.
    + apply elem_of_app in Hin as [Hin|Hin].
      * destruct (IHd _ _ _ _ Hin) as [dirs' ?]. exists dirs'. apply elem_of_app. by left.
      * destruct (IHds IHrest Hin) as [dirs' ?]. exists dirs'.
        apply elem_of_app. by right.
Qed.

Lemma candidate_in_files_of exclude source_dir (c : list string * (string * file)) :
  c ∈ candidates exclude source_dir →
  (relpath (fst c) (fst (snd c)), snd (snd c)) ∈ Archive.files_of source_dir ∧
  ∃ dirs files, (fst c, dirs, files) ∈ walk ∅ [] source_dir ∧ snd c ∈ files.
Proof.
  unfold candidates. intros Hc.
  apply list_elem_of_In, in_flat_map in Hc as ([[root dirs] files] & Hwalk & Hc).
  apply list_elem_of_In in Hwalk, Hc.
  apply list_elem_of_fmap in Hc as (entry & -> & Hentry).
  apply elem_of_List_filter in Hentry as [Hentry _]. simpl.
  apply walk_unpruned in Hwalk as [dirs' Hwalk].
  split; [|by exists dirs', files].
  unfold Archive.files_of. apply list_elem_of_In, in_flat_map.
  exists (root, dirs', files). split; [by apply list_elem_of_In|].
  apply list_elem_of_In, list_elem_of_fmap. by exists entry.
Qed.

Lemma proper_candidate exclude source_dir (c : list string * (string * file)) :
  proper source_dir = true →
  c ∈ candidates exclude source_dir →
  Forall (fun s => entry_name s = true) (fst c ++ [fst (snd c)]).
Proof.
  intros Hproper Hc.
  apply candidate_in_files_of in Hc as (_ & dirs & files & Hwalk & Hentry).
  unfold proper in Hproper. rewrite forallb_forall in Hproper.
  specialize (Hproper _ (proj1 (list_elem_of_In _ _) Hwalk)). simpl in Hproper.
  apply andb_prop in Hproper as [Hroot Hfiles].
  rewrite forallb_forall in Hroot, Hfiles.
  apply Forall_app. split.
  - apply Forall_forall. intros s Hs. by apply Hroot, list_elem_of_In.
  - apply Forall_singleton. by apply (Hfiles (snd c)), list_elem_of_In.
Qed.

Lemma landed_lookup backup_dir source_dir (cs : list (list string * (string * file)))
    (before : gmap string file) :
  (∀ c, c ∈ cs →
     is_Some (at_paths source_dir !! relpath (fst c) (fst (snd c))) ∧
     below backup_dir (snd (copy_of backup_dir c))
       = Some (relpath (fst c) (fst (snd c)))) →
  ∀ path,
    landed backup_dir source_dir (copy_of backup_dir <$> cs) before !! path
    = if decide (path ∈ (fun c => relpath (fst c) (fst (snd c))) <$> cs)
      then at_paths source_dir !! path
      else before !! path.
Proof.
  unfold landed. revert before.
  induction cs as [|c cs IH]; intros before Hcs path.
  - rewrite decide_False; [done|]. apply not_elem_of_nil.
  - destruct (Hcs c) as [[f Hf] Hbelow]; [by left|].
    rewrite fmap_cons. cbn [foldl]. destruct (copy_of backup_dir c) as [src tgt] eqn:Hcopy.
    assert (src = relpath (fst c) (fst (snd c))) as ->
      by (unfold copy_of in Hcopy; by simplify_eq).
    simpl in Hbelow. rewrite Hf, Hbelow.
    rewrite IH by (intros c' Hc'; apply Hcs; by right).
    rewrite fmap_cons.
    destruct (decide (path ∈ (fun c => relpath (fst c) (fst (snd c))) <$> cs)) as [Hin|Hout].
    + rewrite decide_True; [done|]. by right.
    + destruct (decide (path = relpath (fst c) (fst (snd c)))) as [->|Hne].
      * rewrite decide_True by (by left). by rewrite lookup_insert_eq.
      * rewrite decide_False by (by intros [?|?]%elem_of_cons).
        by rewrite lookup_insert_ne.
Qed.

(** X22. The backup of a completed run verifies.  Take the copies the run
  made, in order, each putting the source file found at its source path
  at its target path, over whatever the backup directory held before;
  and let the files the run writes after the loop (record, requirements,
  environment description, manifest) be anything.  In a source tree
  whose names are names of directory entries and whose paths are
  distinct, and provided no recorded path is the name of one of those
  files, the directory holds, for every record of the manifest, a file
  at the record's path with the record's digest; the copies leave every
  other path as it was; and [verify_backup] on the directory and the
  run's manifest reports success and no error. *)
Theorem X22_completed_run_verifies h source_dir target_dir description tags
    exclude_folders env_info_name w out w' (before final : gmap string file) :
  copy_code_files h source_dir target_dir description tags exclude_folders
                  env_info_name w = (Ok out, w') →
  proper source_dir = true →
  NoDup (fst <$> Archive.files_of source_dir) →
  (∀ r, r ∈ bi_files (br_info out) → fi_path r ∉ own_files out) →
  let made := landed (br_backup_dir out) source_dir
                     (drop (length (copied w)) (copied w')) before in
  (∀ path, path ∉ own_files out → final !! path = made !! path) →
  (∀ r, r ∈ bi_files (br_info out) → Checks.intact made r ∧ Checks.intact final r) ∧
  (∀ path, path ∉ fi_path <$> bi_files (br_info out) → made !! path = before !! path) ∧
  Checks.verify_backup source_dir final (br_info out)
  = Ok {| Checks.success := true; Checks.errors := [] |}.
Proof.
  intros Hrun Hproper Hnodup Hown made Hfinal.
  apply copy_code_files_trace in Hrun
    as (d & last & m & _ & _ & (Hread & Hfiles & _ & _ & Hcopied & _) & Hdir & _).
  simpl in Hfiles.
  set (cs := candidates (list_to_set (default [] exclude_folders)) source_dir) in *.
  assert (∀ path, made !! path
                  = if decide (path ∈ (fun c => relpath (fst c) (fst (snd c))) <$> cs)
                    then at_paths source_dir !! path
                    else before !! path) as Hmade.
  { unfold made. rewrite Hcopied, drop_app_length, Hdir.
    apply landed_lookup. intros c Hc. split.
    - exists (snd (snd c)). apply elem_of_list_to_map_1; [done|].
      by apply (candidate_in_files_of (list_to_set (default [] exclude_folders)) _ c).
    - rewrite <- Hdir. apply below_copy_of.
      by apply (proper_candidate (list_to_set (default [] exclude_folders)) source_dir). }
  assert (fi_path <$> bi_files (br_info out)
          = (fun c => relpath (fst c) (fst (snd c))) <$> cs) as Hpaths.
  { rewrite Hfiles, <- list_fmap_compose. done. }
  assert (Forall (Checks.intact made) (bi_files (br_info out))) as Hintact.
  { rewrite Hfiles. apply Forall_fmap, Forall_forall. intros c Hc.
    rewrite Forall_forall in Hread. destruct (Hread c Hc) as [digest Hdig].
    exists (snd (snd c)). simpl. split.
    - rewrite Hmade, decide_True.
      + apply elem_of_list_to_map_1; [done|].
        by apply (candidate_in_files_of (list_to_set (default [] exclude_folders)) _ c).
      + apply list_elem_of_fmap. by exists c.
    - by rewrite Hdig. }
  assert (Forall (Checks.intact final) (bi_files (br_info out))) as Hkept.
  { rewrite Forall_forall in Hintact. apply Forall_forall. intros r Hr.
    destruct (Hintact r Hr) as (f & Hf & Hdig). exists f. split; [|done].
    by rewrite Hfinal by (by apply Hown). }
  split_and!.
  - rewrite Forall_forall in Hintact, Hkept. intros r Hr. split; auto.
  - intros path Hout. rewrite Hmade, decide_False; [done|]. by rewrite <- Hpaths.
  - exact (verify_intact final _ source_dir (br_info out) eq_refl Hkept).
Qed.

Lemma X22_completed_run_verifies_witness :
  copy_code_files Samples.first_time (Samples.project "H1") [] "nightly" None
                  Samples.excluded None Samples.quiet
    = (Ok Samples.first_out, Samples.first_world) ∧
  proper (Samples.project "H1") = true ∧
  NoDup (fst <$> Archive.files_of (Samples.project "H1")) ∧
  own_files Samples.first_out
    = ["backup_record.md"; "requirements_lcychat.txt"; "requirements_openmmlab.txt";
       "environment_info.json"; "backup_info.json"] ∧
  landed "20240101_120000" (Samples.project "H1") (copied Samples.first_world) ∅
    = <["docs/README.MD" := Samples.a_py "55"]> (<["a.py" := Samples.a_py "H1"]> ∅) ∧
  Checks.verify_backup (Samples.project "H1")
    (<["backup_info.json" := Samples.a_py "M1"]>
       (landed "20240101_120000" (Samples.project "H1") (copied Samples.first_world) ∅))
    (br_info Samples.first_out)
  = Ok {| Checks.success := true; Checks.errors := [] |}.
Proof.
  assert (copy_code_files Samples.first_time (Samples.project "H1") [] "nightly" None
                          Samples.excluded None Samples.quiet
          = (Ok Samples.first_out, Samples.first_world)) as Hrun
    by (vm_compute; reflexivity).
  assert (proper (Samples.project "H1") = true) as Hproper by (vm_compute; reflexivity).
  assert (NoDup (fst <$> Archive.files_of (Samples.project "H1"))) as Hnodup.
  { apply (bool_decide_unpack _). vm_compute. exact I. }
  assert (∀ r, r ∈ bi_files (br_info Samples.first_out) →
               fi_path r ∉ own_files Samples.first_out) as Hown.
  { apply Forall_forall. apply (bool_decide_unpack _). vm_compute. exact I. }
  split; [exact Hrun|]. split; [exact Hproper|]. split; [exact Hnodup|].
  split; [vm_compute; reflexivity|]. split; [vm_compute; reflexivity|].
  apply (X22_completed_run_verifies _ _ _ _ _ _ _ _ _ _ ∅ _ Hrun Hproper Hnodup Hown).
  intros path Hpath. apply lookup_insert_ne. intros <-. apply Hpath.
  vm_compute. do 4 right. left.
Defined.

(** ** Copying a list of files *)

(** X23. [copy_with_progress] copies the pairs in order and stops at the
  first copy that fails: either all are copied, or the error names the
  source of the first failing pair, the pairs before it are copied, and
  the pairs after it are not attempted. *)
Theorem X23_copy_with_progress_stops_at_first_failure
    (files_to_copy : list (string * string)) (w : world) :
  match Checks.first_failure (copy_script w) (length files_to_copy) with
  | None =>
      Checks.copy_with_progress files_to_copy w
      = (Ok tt, {| copy_script := drop (length files_to_copy) (copy_script w);
                   copied := copied w ++ files_to_copy;
                   slept := slept w |})
  | Some k =>
      ∃ source target,
        files_to_copy !! k = Some (source, target) ∧
        Checks.copy_with_progress files_to_copy w
        = (Err (CopyError source),
           {| copy_script := drop (S k) (copy_script w);
              copied := copied w ++ take k files_to_copy;
              slept := slept w |})
  end.
Proof.
  unfold Checks.copy_with_progress. destruct w as [script made naps]. simpl.
  revert script made.
  induction files_to_copy as [|[source target] rest IH]; intros script made; simpl.
  - assert (Checks.first_failure script 0 = None) as -> by (by destruct script).
    unfold ret. by rewrite app_nil_r, drop_0.
  - unfold bind, shutil_copy2 at 1. simpl.
    destruct script as [|[] script]; simpl.
    + specialize (IH [] (made ++ [(source, target)])).
      assert (Checks.first_failure [] (length rest) = None) as Hnone
        by (by destruct (length rest)).
      rewrite Hnone in IH. rewrite IH. rewrite <- app_assoc.
      by destruct (length rest).
    + specialize (IH script (made ++ [(source, target)])).
      destruct (Checks.first_failure script (length rest)) as [k|]; simpl.
      * destruct IH as (s & t & Hk & ->). exists s, t. split; [done|].
        by rewrite <- app_assoc.
      * rewrite IH. by rewrite <- app_assoc.
    + exists source, target. split; [done|]. by rewrite app_nil_r, drop_0.
Qed.
